(** * Leave-request lifecycle of the employee tool

    A shallow embedding of the handlers of the React components
    (LeaveRequestForm, LeaveRequestsList, EmployeesList, AuthContext and
    the dashboard page) over an explicit model of the Supabase tables
    they read and write, followed by the properties of the specification
    that these handlers decide. *)

From Stdlib Require Import String Ascii.
From Stdlib Require Import ZArith NArith List Bool Lia.
From Stdlib Require Import Sorting.Sorted Sorting.Permutation.
From Stdlib Require Import DecimalString.
Import ListNotations.

Local Open Scope Z_scope.

(** ** JavaScript strings

    A JavaScript string is a sequence of UTF-16 code units. *)

Module JS.

Definition jsstring := list N.

(** [u "abc"] is the JavaScript string with the given (ASCII) characters. *)
Fixpoint u (s : string) : jsstring :=
  match s with
  | EmptyString => []
  | String a rest => N_of_ascii a :: u rest
  end.

Fixpoint str_eqb (a b : jsstring) : bool :=
  match a, b with
  | [], [] => true
  | x :: a', y :: b' => N.eqb x y && str_eqb a' b'
  | _, _ => false
  end.

(** ECMAScript WhiteSpace and LineTerminator code points, the characters
    removed by [String.prototype.trim]. *)
Definition is_white_space (c : N) : bool :=
  (N.eqb c 9 || N.eqb c 10 || N.eqb c 11 || N.eqb c 12 || N.eqb c 13
   || N.eqb c 32 || N.eqb c 160 || N.eqb c 5760
   || (N.leb 8192 c && N.leb c 8202)
   || N.eqb c 8232 || N.eqb c 8233 || N.eqb c 8239 || N.eqb c 8287
   || N.eqb c 12288 || N.eqb c 65279)%bool.

Fixpoint trimStart (s : jsstring) : jsstring :=
  match s with
  | [] => []
  | c :: rest => if is_white_space c then trimStart rest else s
  end.

Definition trimEnd (s : jsstring) : jsstring := rev (trimStart (rev s)).

Definition trim (s : jsstring) : jsstring := trimEnd (trimStart s).

Fixpoint startsWith (s prefix : jsstring) : bool :=
  match prefix, s with
  | [], _ => true
  | p :: prefix', c :: s' => N.eqb p c && startsWith s' prefix'
  | _ :: _, [] => false
  end.

(** [s.includes(needle)] *)
Fixpoint includes (s needle : jsstring) : bool :=
  startsWith s needle ||
  match s with
  | [] => false
  | _ :: rest => includes rest needle
  end.

(** [s.split(sep)[0]] for a one-character separator. *)
Fixpoint split_head (sep : N) (s : jsstring) : jsstring :=
  match s with
  | [] => []
  | c :: rest => if N.eqb c sep then [] else c :: split_head sep rest
  end.

(** A string-valued operand of [||] is falsy when it is undefined or
    empty. *)
Definition truthy (o : option jsstring) : bool :=
  match o with
  | Some (_ :: _) => true
  | _ => false
  end.

Definition or_else (o : option jsstring) (alt : option jsstring) :
  option jsstring :=
  if truthy o then o else alt.

(** Decimal rendering of a number inside a template literal. *)
Definition decimal (z : Z) : jsstring := u (NilZero.string_of_int (Z.to_int z)).

End JS.

Import JS.

(** ** Records of src/types/index.tsx *)

Inductive Role := admin | employee.

Inductive Status := pending | approved | rejected.

Definition status_eqb (a b : Status) : bool :=
  match a, b with
  | pending, pending | approved, approved | rejected, rejected => true
  | _, _ => false
  end.

(** Timestamps are milliseconds since the epoch; a calendar date (the
    value of a date input, "YYYY-MM-DD") is its day number since the
    epoch. *)
Record Profile := {
  pf_id : jsstring;
  pf_email : jsstring;
  pf_full_name : jsstring;
  pf_avatar_url : option jsstring;
  pf_phone : option jsstring;
  pf_address : option jsstring;
  pf_employee_id : jsstring;
  pf_department : option jsstring;
  pf_position : option jsstring;
  pf_hire_date : option jsstring;
  pf_salary : option Z;
  pf_user_role : Role;
  pf_manager_id : option jsstring;
  pf_is_active : bool;
  pf_created_at : Z;
  pf_updated_at : Z
}.

Record LeaveRequest := {
  lr_id : jsstring;
  lr_employee_id : jsstring;
  lr_leave_type : jsstring;
  lr_start_date : Z;
  lr_end_date : Z;
  lr_total_days : Z;
  lr_reason : jsstring;
  lr_status : Status;
  lr_approved_by : option jsstring;
  lr_approved_at : option Z;
  lr_rejection_reason : option jsstring;
  lr_created_at : Z
}.

Record LeaveBalance := {
  lb_employee_id : jsstring;
  lb_leave_type : jsstring;
  lb_total_days : Z;
  lb_used_days : Z;
  lb_remaining_days : Z;
  lb_year : Z
}.

(** The authenticated user of @supabase/supabase-js, as far as the code
    reads it. *)
Record User := {
  user_id : jsstring;
  user_email : option jsstring;
  user_metadata_full_name : option jsstring
}.

(** ** The store

    The three tables the components work on.  Each call against the
    store gets a [Fault] telling how the store answers: it performs the
    call, answers with an error object, or the call throws. *)

Record DB := {
  leave_requests : list LeaveRequest;
  leave_balances : list LeaveBalance;
  profiles : list Profile
}.

Record PgError := {
  code : jsstring;
  message : option jsstring
}.

Inductive Fault :=
| NoFault
| PgErr (e : PgError)
| Throws.

(** [message?.includes(needle)] *)
Definition message_includes (e : PgError) (needle : string) : bool :=
  match message e with
  | Some m => includes m (u needle)
  | None => false
  end.

Definition code_is (e : PgError) (c : string) : bool := str_eqb (code e) (u c).

Arguments u s%_string.
Arguments message_includes e needle%_string.
Arguments code_is e c%_string.

(** [supabase.from(table).update(patch).eq("id", key)]: the patch is
    applied to every row whose id equals the key. *)
Definition update_where {A} (key_of : A -> jsstring) (key : jsstring)
  (patch : A -> A) (rows : list A) : list A :=
  map (fun r => if str_eqb (key_of r) key then patch r else r) rows.

(** ** src/context/AuthContext.tsx *)

Record AuthContext := {
  user : option User;
  profile : option Profile
}.

(** [isAdmin: profile?.user_role === "admin"] *)
Definition isAdmin (ctx : AuthContext) : bool :=
  match profile ctx with
  | Some p => match pf_user_role p with admin => true | employee => false end
  | None => false
  end.

(** The object literal [basicProfile] of [createBasicProfile]; the clock
    is read once, at [now]. *)
Definition basicProfile (usr : User) (now : Z) : Profile :=
  {| pf_id := user_id usr;
     pf_email := match or_else (user_email usr) (Some (u "")) with
                 | Some e => e
                 | None => u ""
                 end;
     pf_full_name :=
       match or_else (user_metadata_full_name usr)
               (or_else (option_map (split_head 64) (user_email usr))
                  (Some (u "New User"))) with
       | Some n => n
       | None => u "New User"
       end;
     pf_avatar_url := None;
     pf_phone := None;
     pf_address := None;
     pf_employee_id := u "EMP" ++ decimal now;
     pf_department := None;
     pf_position := None;
     pf_hire_date := None;
     pf_salary := None;
     pf_user_role := employee;
     pf_manager_id := None;
     pf_is_active := true;
     pf_created_at := now;
     pf_updated_at := now |}.

(** [createBasicProfile]: inserts the basic profile; when the store
    answers with an error, the same object is returned as a temporary
    profile for the session and nothing is stored. *)
Definition createBasicProfile (usr : User) (now : Z) (ins : Fault) (db : DB) :
  DB * option Profile :=
  match ins with
  | NoFault =>
      ({| leave_requests := leave_requests db;
          leave_balances := leave_balances db;
          profiles := profiles db ++ [basicProfile usr now] |},
       Some (basicProfile usr now))
  | PgErr _ => (db, Some (basicProfile usr now))
  | Throws => (db, None)
  end.

(** The two classifications [fetchProfile] makes of a store error. *)
Definition is_table_missing (e : PgError) : bool :=
  code_is e "PGRST116" || message_includes e "relation"
  || message_includes e "does not exist".

Definition is_permission_error (e : PgError) : bool :=
  code_is e "PGRST301" || message_includes e "permission".

(** [fetchProfile]: [sel] is the answer to the select on profiles,
    [currentUser] what [supabase.auth.getUser()] yields, [ins] the answer
    to the insert of [createBasicProfile].  The id column is the primary
    key of profiles, so [maybeSingle] sees at most one row. *)
Definition fetchProfile (userId : jsstring) (sel : Fault)
  (currentUser : option User) (now : Z) (ins : Fault) (db : DB) :
  DB * option Profile :=
  match sel with
  | PgErr e =>
      if is_table_missing e then (db, None)
      else if is_permission_error e then
        match currentUser with
        | Some usr => createBasicProfile usr now ins db
        | None => (db, None)
        end
      else (db, None)
  | NoFault =>
      match find (fun p => str_eqb (pf_id p) userId) (profiles db) with
      | Some p => (db, Some p)
      | None =>
          match currentUser with
          | Some usr => createBasicProfile usr now ins db
          | None => (db, None)
          end
      end
  | Throws => (db, None)
  end.

(** ** src/components/LeaveRequestForm.tsx *)

Record FormData := {
  leave_type : jsstring;
  start_date : option Z;   (* None: the empty string of an unset date input *)
  end_date : option Z;
  reason : jsstring
}.

Definition msPerDay : Z := 1000 * 3600 * 24.

(** [new Date("YYYY-MM-DD").getTime()]: a date-only string denotes UTC
    midnight of that day. *)
Definition getTime (day : Z) : Z := day * msPerDay.

(** [Math.ceil(a / b)] for a positive divisor. *)
Definition Math_ceil_div (a b : Z) : Z := - ((- a) / b).

Definition calculateDays (start end_ : option Z) : Z :=
  match start, end_ with
  | Some s, Some e =>
      let timeDiff := getTime e - getTime s in
      Math_ceil_div timeDiff msPerDay + 1
  | _, _ => 0
  end.

(** The texts [handleSubmit] puts into [message]. *)
Inductive Message :=
| MsgSignInAgain                        (* "Error: Please sign out and sign back in" *)
| MsgEndBeforeStart                     (* "End date must be after start date" *)
| MsgPermissionDenied                   (* "Permission denied. Please contact ..." *)
| MsgRelationship                       (* "Database relationship error. ..." *)
| MsgTableNotFound                      (* "Database table not found. ..." *)
| MsgDatabaseError (m : option jsstring) (* `Database error: ${error.message}` *)
| MsgSuccess                            (* "Leave request submitted successfully!" *)
| MsgUnexpected.                        (* `Unexpected error: ...` *)

(** The row the store creates from [requestPayload]; the id and
    created_at columns are filled in by the store. *)
Definition requestPayload (usr : User) (form : FormData) (totalDays : Z)
  (new_id : jsstring) (created : Z) : LeaveRequest :=
  {| lr_id := new_id;
     lr_employee_id := user_id usr;
     lr_leave_type := leave_type form;
     lr_start_date := match start_date form with Some d => d | None => 0 end;
     lr_end_date := match end_date form with Some d => d | None => 0 end;
     lr_total_days := totalDays;
     lr_reason := trim (reason form);
     lr_status := pending;
     lr_approved_by := None;
     lr_approved_at := None;
     lr_rejection_reason := None;
     lr_created_at := created |}.

Definition insert_message (e : PgError) : Message :=
  if code_is e "42501" || message_includes e "permission" then MsgPermissionDenied
  else if code_is e "23503" then MsgRelationship
  else if code_is e "PGRST116" then MsgTableNotFound
  else MsgDatabaseError (message e).

(** [handleSubmit]: the new store and the final [message].  (The 30 s
    timer only replaces the message while the insert is outstanding; it
    is cleared as soon as the store answers.) *)
Definition handleSubmit (ctx : AuthContext) (form : FormData) (ins : Fault)
  (new_id : jsstring) (created : Z) (db : DB) : DB * Message :=
  match user ctx, profile ctx with
  | Some usr, Some _ =>
      let totalDays := calculateDays (start_date form) (end_date form) in
      if totalDays <=? 0 then (db, MsgEndBeforeStart)
      else
        match ins with
        | NoFault =>
            ({| leave_requests :=
                  leave_requests db
                  ++ [requestPayload usr form totalDays new_id created];
                leave_balances := leave_balances db;
                profiles := profiles db |},
             MsgSuccess)
        | PgErr e => (db, insert_message e)
        | Throws => (db, MsgUnexpected)
        end
  | _, _ => (db, MsgSignInAgain)
  end.

(** The constraints the browser checks before it fires [onSubmit].  The
    four controls are [required]; the start date has [min] = today
    ([new Date().toISOString().split("T")[0]], the UTC day [today]); the
    end date has [min] = the start date or, while that is unset, today.
    The select only holds the empty value or one of [leaveTypes]. *)
Definition form_valid (today : Z) (form : FormData) : bool :=
  negb (str_eqb (leave_type form) [])
  && match start_date form with
     | Some s => today <=? s
     | None => false
     end
  && match end_date form with
     | Some e =>
         match start_date form with
         | Some s => s
         | None => today
         end <=? e
     | None => false
     end
  && negb (str_eqb (reason form) []).

(** [disabled={loading || !user || !profile}] on the submit button. *)
Definition submit_disabled (loading : bool) (ctx : AuthContext) : bool :=
  loading
  || match user ctx with Some _ => false | None => true end
  || match profile ctx with Some _ => false | None => true end.

(** A click on the submit button: [handleSubmit] runs only when the
    button is enabled and the form passes the browser's checks. *)
Definition onSubmit (today : Z) (loading : bool) (ctx : AuthContext)
  (form : FormData) (ins : Fault) (new_id : jsstring) (created : Z) (db : DB) :
  option (DB * Message) :=
  if negb (submit_disabled loading ctx) && form_valid today form
  then Some (handleSubmit ctx form ins new_id created db)
  else None.

(** ** src/components/LeaveRequestsList.tsx *)

(** The rows held in the component state [requests]. *)
Record EmployeeInfo := {
  ei_full_name : jsstring;
  ei_employee_id : jsstring;
  ei_department : option jsstring
}.

Record ListItem := {
  li_id : jsstring;
  li_employee_id : jsstring;
  li_leave_type : jsstring;
  li_start_date : Z;
  li_end_date : Z;
  li_total_days : Z;
  li_reason : jsstring;
  li_status : Status;
  li_rejection_reason : option jsstring;
  li_created_at : Z;
  li_employee : option EmployeeInfo
}.

Inductive FetchError :=
| ErrFetching (m : option jsstring)  (* `Error fetching leave requests: ${message}` *)
| ErrTableNotFound                   (* "Leave requests table not found. ..." *)
| ErrUnexpected.                     (* "An unexpected error occurred ..." *)

Record ListState := {
  requests : list ListItem;
  error : option FetchError
}.

(** [.order("created_at", { ascending: false })]: the rows, newest
    created_at first. *)
Fixpoint insert_desc (r : LeaveRequest) (rows : list LeaveRequest) :
  list LeaveRequest :=
  match rows with
  | [] => [r]
  | x :: rest =>
      if lr_created_at x <? lr_created_at r then r :: rows
      else x :: insert_desc r rest
  end.

Definition order_created_at_desc (rows : list LeaveRequest) :
  list LeaveRequest :=
  fold_right insert_desc [] rows.

(** [limit || 100]: an absent limit, and 0, give 100. *)
Definition limit_or_100 (limit : option Z) : Z :=
  match limit with
  | Some n => if n =? 0 then 100 else n
  | None => 100
  end.

Definition select_leave_requests (limit : option Z) (db : DB) :
  list LeaveRequest :=
  firstn (Z.to_nat (limit_or_100 limit))
    (order_created_at_desc (leave_requests db)).

(** The body of the [map] that combines a request with its profile;
    [profilesData] is None when the profiles query answered an error. *)
Definition transform (profilesData : option (list Profile))
  (request : LeaveRequest) : ListItem :=
  let employeeProfile :=
    match profilesData with
    | Some ps =>
        find (fun p => str_eqb (pf_id p) (lr_employee_id request)) ps
    | None => None
    end in
  {| li_id := lr_id request;
     li_employee_id := lr_employee_id request;
     li_leave_type := lr_leave_type request;
     li_start_date := lr_start_date request;
     li_end_date := lr_end_date request;
     li_total_days := lr_total_days request;
     li_reason := lr_reason request;
     li_status := lr_status request;
     li_rejection_reason := lr_rejection_reason request;
     li_created_at := lr_created_at request;
     li_employee :=
       option_map
         (fun p => {| ei_full_name := pf_full_name p;
                      ei_employee_id := pf_employee_id p;
                      ei_department := pf_department p |})
         employeeProfile |}.

(** [.in("id", employeeIds)] *)
Definition profiles_in (ids : list jsstring) (db : DB) : list Profile :=
  filter (fun p => existsb (str_eqb (pf_id p)) ids) (profiles db).

(** [fetchLeaveRequests]: [q1] answers the query on leave_requests, [q2]
    the one on profiles. *)
Definition fetchLeaveRequests (limit : option Z) (q1 q2 : Fault) (db : DB) :
  ListState :=
  match q1 with
  | PgErr e =>
      {| requests := [];
         error :=
           Some (if code_is e "PGRST116" || message_includes e "does not exist"
                 then ErrTableNotFound else ErrFetching (message e)) |}
  | Throws => {| requests := []; error := Some ErrUnexpected |}
  | NoFault =>
      let leaveRequestsData := select_leave_requests limit db in
      match leaveRequestsData with
      | [] => {| requests := []; error := None |}
      | _ :: _ =>
          let employeeIds := map lr_employee_id leaveRequestsData in
          match q2 with
          | Throws => {| requests := []; error := Some ErrUnexpected |}
          | PgErr _ =>
              {| requests := map (transform None) leaveRequestsData;
                 error := None |}
          | NoFault =>
              {| requests :=
                   map (transform (Some (profiles_in employeeIds db)))
                     leaveRequestsData;
                 error := None |}
          end
      end
  end.

(** What a decide handler leaves behind: an [alert], or the refresh of
    the list by [fetchLeaveRequests]. *)
Inductive Alert :=
| AlertApproveError (m : option jsstring)  (* "Error approving request: " + message *)
| AlertApproveUnexpected
| AlertMissingReason                       (* "Please provide a reason for rejection." *)
| AlertRejectError (m : option jsstring)   (* "Error rejecting request: " + message *)
| AlertRejectUnexpected.

Inductive Outcome :=
| Refresh
| Alerted (a : Alert).

Definition set_leave_requests (rows : list LeaveRequest) (db : DB) : DB :=
  {| leave_requests := rows;
     leave_balances := leave_balances db;
     profiles := profiles db |}.

(** The update object of [handleApprove].  A key whose value is
    undefined ([user?.id] without a user) is not sent. *)
Definition approve_patch (authUser : option User) (now : Z)
  (r : LeaveRequest) : LeaveRequest :=
  {| lr_id := lr_id r;
     lr_employee_id := lr_employee_id r;
     lr_leave_type := lr_leave_type r;
     lr_start_date := lr_start_date r;
     lr_end_date := lr_end_date r;
     lr_total_days := lr_total_days r;
     lr_reason := lr_reason r;
     lr_status := approved;
     lr_approved_by :=
       match authUser with
       | Some usr => Some (user_id usr)
       | None => lr_approved_by r
       end;
     lr_approved_at := Some now;
     lr_rejection_reason := lr_rejection_reason r;
     lr_created_at := lr_created_at r |}.

Definition handleApprove (authUser : option User) (now : Z) (upd : Fault)
  (requestId : jsstring) (db : DB) : DB * Outcome :=
  match upd with
  | NoFault =>
      (set_leave_requests
         (update_where lr_id requestId (approve_patch authUser now)
            (leave_requests db)) db,
       Refresh)
  | PgErr e => (db, Alerted (AlertApproveError (message e)))
  | Throws => (db, Alerted AlertApproveUnexpected)
  end.

(** The update object of [handleReject]. *)
Definition reject_patch (reason : jsstring) (r : LeaveRequest) : LeaveRequest :=
  {| lr_id := lr_id r;
     lr_employee_id := lr_employee_id r;
     lr_leave_type := lr_leave_type r;
     lr_start_date := lr_start_date r;
     lr_end_date := lr_end_date r;
     lr_total_days := lr_total_days r;
     lr_reason := lr_reason r;
     lr_status := rejected;
     lr_approved_by := lr_approved_by r;
     lr_approved_at := lr_approved_at r;
     lr_rejection_reason := Some reason;
     lr_created_at := lr_created_at r |}.

(** [!reason || reason.trim() === ""] *)
Definition reason_missing (reason : option jsstring) : bool :=
  match reason with
  | None => true
  | Some r => negb (truthy (Some r)) || str_eqb (trim r) []
  end.

Definition handleReject (upd : Fault) (requestId : jsstring)
  (reason : option jsstring) (db : DB) : DB * Outcome :=
  if reason_missing reason then (db, Alerted AlertMissingReason)
  else
    match upd with
    | NoFault =>
        (set_leave_requests
           (update_where lr_id requestId
              (reject_patch (match reason with Some r => r | None => [] end))
              (leave_requests db)) db,
         Refresh)
    | PgErr e => (db, Alerted (AlertRejectError (message e)))
    | Throws => (db, Alerted AlertRejectUnexpected)
    end.

(** The actions cell of a table row. *)
Inductive Button := ApproveButton | RejectButton.

Definition renderActions (showActions : bool) (is_admin : bool)
  (request : ListItem) : list Button :=
  if showActions && is_admin then
    if status_eqb (li_status request) pending
    then [ApproveButton; RejectButton]
    else []
  else [].

(** The click handler of the reject button: [prompt] yields null when
    cancelled; [handleReject] is called only for a truthy answer. *)
Definition onRejectClick (upd : Fault) (requestId : jsstring)
  (answer : option jsstring) (db : DB) : option (DB * Outcome) :=
  if truthy answer then Some (handleReject upd requestId answer db) else None.

(** ** EmployeesList (src/unnamed/part_001) *)

Definition set_active (b : bool) (p : Profile) : Profile :=
  {| pf_id := pf_id p;
     pf_email := pf_email p;
     pf_full_name := pf_full_name p;
     pf_avatar_url := pf_avatar_url p;
     pf_phone := pf_phone p;
     pf_address := pf_address p;
     pf_employee_id := pf_employee_id p;
     pf_department := pf_department p;
     pf_position := pf_position p;
     pf_hire_date := pf_hire_date p;
     pf_salary := pf_salary p;
     pf_user_role := pf_user_role p;
     pf_manager_id := pf_manager_id p;
     pf_is_active := b;
     pf_created_at := pf_created_at p;
     pf_updated_at := pf_updated_at p |}.

(** [toggleEmployeeStatus]: the new store, and whether the employee list
    is fetched again. *)
Definition toggleEmployeeStatus (upd : Fault) (employeeId : jsstring)
  (currentStatus : bool) (db : DB) : DB * bool :=
  match upd with
  | NoFault =>
      ({| leave_requests := leave_requests db;
          leave_balances := leave_balances db;
          profiles :=
            update_where pf_id employeeId (set_active (negb currentStatus))
              (profiles db) |},
       true)
  | PgErr _ => (db, false)
  | Throws => (db, false)
  end.

(** ** src/app/dashboard/page.tsx and the two dashboards *)


Inductive DashboardView := AdminDashboard | EmployeeDashboard.

(** The effect of the page: a loaded profile that is not active is sent
    to the login page. *)
Definition Dashboard_redirect (loading : bool) (ctx : AuthContext) :
  option jsstring :=
  match profile ctx with
  | Some p =>
      if negb loading && negb (pf_is_active p) then Some (u "/auth/login")
      else None
  | None => None
  end.

Definition Dashboard (ctx : AuthContext) : DashboardView :=
  if isAdmin ctx then AdminDashboard else EmployeeDashboard.


(** ** src/components/MyLeaveRequests.tsx *)

(** [fetchMyRequests]: the new value of the component state [requests].
    Without a profile, and when the store answers an error or the call
    throws, the state is left as it was.  [if (limit)] applies the limit
    only when it is given and not 0. *)
Definition fetchMyRequests (ctx : AuthContext) (limit : option Z) (q : Fault)
  (db : DB) (shown : list LeaveRequest) : list LeaveRequest :=
  match profile ctx with
  | None => shown
  | Some p =>
      match q with
      | NoFault =>
          let rows :=
            order_created_at_desc
              (filter (fun r => str_eqb (lr_employee_id r) (pf_id p))
                 (leave_requests db)) in
          match limit with
          | Some n => if n =? 0 then rows else firstn (Z.to_nat n) rows
          | None => rows
          end
      | PgErr _ => shown
      | Throws => shown
      end
  end.

(** ** AdminDashboard (src/unnamed/part_000) *)

Record DashboardStats := {
  totalEmployees : nat;
  pendingLeaves : nat;
  approvedLeaves : nat;
  rejectedLeaves : nat
}.

(** [leaveStats?.filter((l) => l.status === st).length] *)
Definition count_status (st : Status) (rows : list LeaveRequest) : nat :=
  length (filter (fun l => status_eqb (lr_status l) st) rows).

(** [fetchStats]: [q1] answers the count of active profiles, [q2] the
    select of the statuses.  A query answered with an error yields null,
    which [|| 0] and [?.] turn into 0; a call that throws leaves the
    state as it was. *)
Definition fetchStats (q1 q2 : Fault) (db : DB) (stats : DashboardStats) :
  DashboardStats :=
  match q1 with
  | Throws => stats
  | _ =>
      match q2 with
      | Throws => stats
      | _ =>
          let employeeCount :=
            match q1 with
            | NoFault => length (filter pf_is_active (profiles db))
            | _ => O
            end in
          let leaveStats :=
            match q2 with
            | NoFault => leave_requests db
            | _ => []
            end in
          {| totalEmployees := employeeCount;
             pendingLeaves := count_status pending leaveStats;
             approvedLeaves := count_status approved leaveStats;
             rejectedLeaves := count_status rejected leaveStats |}
      end
  end.

(** ** src/components/EmployeeDashboard.tsx *)

Record EmployeeStats := {
  totalLeavesTaken : nat;
  pendingRequests : nat;
  approvedRequests : nat;
  remainingVacation : Z
}.

(** [.single()] on the vacation balance of the year: a row only when
    exactly one matches. *)
Definition vacation_balance (employeeId : jsstring) (year : Z) (db : DB) :
  option LeaveBalance :=
  match filter (fun b => str_eqb (lb_employee_id b) employeeId
                         && str_eqb (lb_leave_type b) (u "vacation")
                         && (lb_year b =? year))
          (leave_balances db) with
  | [b] => Some b
  | _ => None
  end.

(** [fetchEmployeeStats]: [year] is [new Date().getFullYear()]. *)
Definition fetchEmployeeStats (ctx : AuthContext) (year : Z) (q1 q2 : Fault)
  (db : DB) (stats : EmployeeStats) : EmployeeStats :=
  match profile ctx with
  | None => stats
  | Some p =>
      match q1 with
      | Throws => stats
      | _ =>
          match q2 with
          | Throws => stats
          | _ =>
              let leaveRequests :=
                match q1 with
                | NoFault =>
                    filter (fun r => str_eqb (lr_employee_id r) (pf_id p))
                      (leave_requests db)
                | _ => []
                end in
              let vacationBalance :=
                match q2 with
                | NoFault => vacation_balance (pf_id p) year db
                | _ => None
                end in
              {| totalLeavesTaken := count_status approved leaveRequests;
                 pendingRequests := count_status pending leaveRequests;
                 approvedRequests := count_status approved leaveRequests;
                 remainingVacation :=
                   match vacationBalance with
                   | Some b => lb_remaining_days b
                   | None => 0
                   end |}
          end
      end
  end.

(** The update object of the profile form and of [updateProfile]: a
    [Partial<Profile>].  [None] is a key that is absent; for a nullable
    column [Some None] is the value null. *)
Record ProfileUpdates := {
  up_id : option jsstring;
  up_email : option jsstring;
  up_full_name : option jsstring;
  up_avatar_url : option (option jsstring);
  up_phone : option (option jsstring);
  up_address : option (option jsstring);
  up_employee_id : option jsstring;
  up_department : option (option jsstring);
  up_position : option (option jsstring);
  up_hire_date : option (option jsstring);
  up_salary : option (option Z);
  up_user_role : option Role;
  up_manager_id : option (option jsstring);
  up_is_active : option bool;
  up_created_at : option Z
}.

Definition overwrite {A} (new : option A) (old : A) : A :=
  match new with
  | Some v => v
  | None => old
  end.

(** The row after [update({ ...updates, updated_at: now })]. *)
Definition apply_updates (updates : ProfileUpdates) (now : Z) (p : Profile) :
  Profile :=
  {| pf_id := overwrite (up_id updates) (pf_id p);
     pf_email := overwrite (up_email updates) (pf_email p);
     pf_full_name := overwrite (up_full_name updates) (pf_full_name p);
     pf_avatar_url := overwrite (up_avatar_url updates) (pf_avatar_url p);
     pf_phone := overwrite (up_phone updates) (pf_phone p);
     pf_address := overwrite (up_address updates) (pf_address p);
     pf_employee_id := overwrite (up_employee_id updates) (pf_employee_id p);
     pf_department := overwrite (up_department updates) (pf_department p);
     pf_position := overwrite (up_position updates) (pf_position p);
     pf_hire_date := overwrite (up_hire_date updates) (pf_hire_date p);
     pf_salary := overwrite (up_salary updates) (pf_salary p);
     pf_user_role := overwrite (up_user_role updates) (pf_user_role p);
     pf_manager_id := overwrite (up_manager_id updates) (pf_manager_id p);
     pf_is_active := overwrite (up_is_active updates) (pf_is_active p);
     pf_created_at := overwrite (up_created_at updates) (pf_created_at p);
     pf_updated_at := now |}.

Inductive UpdateError :=
| NoUserLoggedIn                (* "No user logged in" *)
| StoreError (e : PgError)
| NotOneRow                     (* [.single()] found no updated row *)
| UpdateThrew.

(** [updateProfile] of the auth context: the new store, the new context
    and the error of the returned object.  The context takes the updated
    row only when there is data and no error. *)
Definition updateProfile (ctx : AuthContext) (updates : ProfileUpdates)
  (now : Z) (upd : Fault) (db : DB) : DB * AuthContext * option UpdateError :=
  match user ctx with
  | None => (db, ctx, Some NoUserLoggedIn)
  | Some usr =>
      match upd with
      | NoFault =>
          let db' :=
            {| leave_requests := leave_requests db;
               leave_balances := leave_balances db;
               profiles :=
                 update_where pf_id (user_id usr) (apply_updates updates now)
                   (profiles db) |} in
          match find (fun p => str_eqb (pf_id p) (user_id usr)) (profiles db) with
          | Some p =>
              (db',
               {| user := user ctx;
                  profile := Some (apply_updates updates now p) |},
               None)
          | None => (db', ctx, Some NotOneRow)
          end
      | PgErr e => (db, ctx, Some (StoreError e))
      | Throws => (db, ctx, Some UpdateThrew)
      end
  end.

(** [refreshProfile] *)
Definition refreshProfile (ctx : AuthContext) (sel : Fault)
  (currentUser : option User) (now : Z) (ins : Fault) (db : DB) :
  DB * AuthContext :=
  match user ctx with
  | Some usr =>
      let (db', profileData) :=
        fetchProfile (user_id usr) sel currentUser now ins db in
      (db', {| user := user ctx; profile := profileData |})
  | None => (db, ctx)
  end.

Record EditForm := {
  ef_full_name : jsstring;
  ef_email : jsstring;
  ef_phone : jsstring;
  ef_address : jsstring;
  ef_department : jsstring;
  ef_position : jsstring;
  ef_hire_date : jsstring   (* the value of a date input: "" or "YYYY-MM-DD" *)
}.

(** [value || null] *)
Definition or_null (s : jsstring) : option jsstring :=
  match s with
  | [] => None
  | _ :: _ => Some s
  end.

(** The object [updates] of [handleSaveProfile];
    [new Date("YYYY-MM-DD").toISOString()] is that day at UTC midnight. *)
Definition save_updates (form : EditForm) : ProfileUpdates :=
  {| up_id := None;
     up_email := Some (ef_email form);
     up_full_name := Some (ef_full_name form);
     up_avatar_url := None;
     up_phone := Some (or_null (ef_phone form));
     up_address := Some (or_null (ef_address form));
     up_employee_id := None;
     up_department := Some (or_null (ef_department form));
     up_position := Some (or_null (ef_position form));
     up_hire_date :=
       Some (option_map (fun d => d ++ u "T00:00:00.000Z")
               (or_null (ef_hire_date form)));
     up_salary := None;
     up_user_role := None;
     up_manager_id := None;
     up_is_active := None;
     up_created_at := None |}.

(** [handleSaveProfile]: the new store, the new context and the new
    value of [isEditing]. *)
Definition handleSaveProfile (ctx : AuthContext) (form : EditForm) (now : Z)
  (upd : Fault) (db : DB) (isEditing : bool) : DB * AuthContext * bool :=
  match profile ctx with
  | None => (db, ctx, isEditing)
  | Some _ =>
      match updateProfile ctx (save_updates form) now upd db with
      | (db', ctx', None) => (db', ctx', false)
      | (db', ctx', Some _) => (db', ctx', isEditing)
      end
  end.

(** ** EmployeesList: the search box *)

(** [filteredEmployees]; [toLowerCase] is [String.prototype.toLowerCase]. *)
Definition filteredEmployees (toLowerCase : jsstring -> jsstring)
  (searchTerm : jsstring) (employees : list Profile) : list Profile :=
  filter
    (fun employee =>
       includes (toLowerCase (pf_full_name employee)) (toLowerCase searchTerm)
       || includes (toLowerCase (pf_email employee)) (toLowerCase searchTerm)
       || includes (toLowerCase (pf_employee_id employee))
            (toLowerCase searchTerm)
       || match pf_department employee with
          | Some d =>
              truthy (Some d)
              && includes (toLowerCase d) (toLowerCase searchTerm)
          | None => false
          end)
    employees.

(** ** src/components/NotificationBell.tsx *)

Record Notification := {
  nt_id : jsstring;
  nt_user_id : jsstring;
  nt_title : jsstring;
  nt_message : jsstring;
  nt_type : jsstring;
  nt_is_read : bool;
  nt_created_at : Z
}.

Record BellState := {
  notifications : list Notification;
  unreadCount : nat
}.

Fixpoint insert_newest (n : Notification) (rows : list Notification) :
  list Notification :=
  match rows with
  | [] => [n]
  | x :: rest =>
      if nt_created_at x <? nt_created_at n then n :: rows
      else x :: insert_newest n rest
  end.

(** [.order("created_at", { ascending: false })] on notifications. *)
Definition order_notifications (rows : list Notification) : list Notification :=
  fold_right insert_newest [] rows.

(** [fetchNotifications]: without a user, and without data, the state
    stays as it was. *)
Definition fetchNotifications (usr : option User) (q : Fault)
  (table : list Notification) (st : BellState) : BellState :=
  match usr with
  | None => st
  | Some usr =>
      match q with
      | NoFault =>
          let data :=
            firstn 10
              (order_notifications
                 (filter (fun n => str_eqb (nt_user_id n) (user_id usr)) table)) in
          {| notifications := data;
             unreadCount := length (filter (fun n => negb (nt_is_read n)) data) |}
      | PgErr _ => st
      | Throws => st
      end
  end.

Definition set_read (n : Notification) : Notification :=
  {| nt_id := nt_id n;
     nt_user_id := nt_user_id n;
     nt_title := nt_title n;
     nt_message := nt_message n;
     nt_type := nt_type n;
     nt_is_read := true;
     nt_created_at := nt_created_at n |}.

(** [markAsRead]: the table after the update ([upd]) and the state after
    the fetch that follows ([q]); the answer to the update is not looked
    at. *)
Definition markAsRead (usr : option User) (upd q : Fault)
  (notificationId : jsstring) (table : list Notification) (st : BellState) :
  list Notification * BellState :=
  match upd with
  | NoFault =>
      let table' := update_where nt_id notificationId set_read table in
      (table', fetchNotifications usr q table' st)
  | PgErr _ => (table, fetchNotifications usr q table st)
  | Throws => (table, st)
  end.

(** [markAllAsRead] for a signed-in user: the rows of the user that are
    unread are set to read. *)
Definition markAllAsRead (usr : User) (upd q : Fault)
  (table : list Notification) (st : BellState) :
  list Notification * BellState :=
  match upd with
  | NoFault =>
      let table' :=
        map (fun n =>
               if str_eqb (nt_user_id n) (user_id usr) && negb (nt_is_read n)
               then set_read n else n)
          table in
      (table', fetchNotifications (Some usr) q table' st)
  | PgErr _ => (table, fetchNotifications (Some usr) q table st)
  | Throws => (table, st)
  end.

(** The badge on the bell: nothing for 0, "99+" above 99. *)
Definition badge (count : nat) : option jsstring :=
  if (0 <? count)%nat then
    Some (if (99 <? count)%nat then u "99+" else decimal (Z.of_nat count))
  else None.

(** ** Predicates used in the statements *)

(** The fields this file calls the decision fields of a request, and
    what holds of them after a single decision. *)
Definition undecided (r : LeaveRequest) : Prop :=
  lr_status r = pending /\ lr_approved_by r = None
  /\ lr_approved_at r = None /\ lr_rejection_reason r = None.

Definition decision_fields_ok (r : LeaveRequest) : Prop :=
  (lr_rejection_reason r <> None <-> lr_status r = rejected)
  /\ (lr_approved_at r <> None <-> lr_status r = approved)
  /\ (lr_approved_by r <> None -> lr_status r = approved).

(** The columns of a request that no decision writes. *)
Definition same_request_columns (r r' : LeaveRequest) : Prop :=
  lr_id r' = lr_id r
  /\ lr_employee_id r' = lr_employee_id r
  /\ lr_leave_type r' = lr_leave_type r
  /\ lr_start_date r' = lr_start_date r
  /\ lr_end_date r' = lr_end_date r
  /\ lr_total_days r' = lr_total_days r
  /\ lr_reason r' = lr_reason r
  /\ lr_created_at r' = lr_created_at r.

(** A row of the list shows a stored request: the ten columns the list
    keeps are those of the request. *)
Definition shows_row (item : ListItem) (r : LeaveRequest) : Prop :=
  li_id item = lr_id r
  /\ li_employee_id item = lr_employee_id r
  /\ li_leave_type item = lr_leave_type r
  /\ li_start_date item = lr_start_date r
  /\ li_end_date item = lr_end_date r
  /\ li_total_days item = lr_total_days r
  /\ li_reason item = lr_reason r
  /\ li_status item = lr_status r
  /\ li_rejection_reason item = lr_rejection_reason r
  /\ li_created_at item = lr_created_at r.

(** Newest first: every row is at least as new as the rows after it. *)
Definition newer_or_same (a b : LeaveRequest) : Prop :=
  lr_created_at b <= lr_created_at a.

Definition newest_first (rows : list LeaveRequest) : Prop :=
  StronglySorted newer_or_same rows.

(** ** Sample data

    Employee u1 with a vacation balance of 10 days for 2024, 2 of them
    used, and a pending vacation request from 2024-06-10 (day 19884) to
    2024-06-14 (day 19888). *)

Module Sample.

Definition mkProfile (id name : string) (role : Role) (active : bool) :
  Profile :=
  {| pf_id := u id;
     pf_email := u name ++ u "@example.com";
     pf_full_name := u name;
     pf_avatar_url := None;
     pf_phone := None;
     pf_address := None;
     pf_employee_id := u "EMP" ++ u id;
     pf_department := None;
     pf_position := None;
     pf_hire_date := None;
     pf_salary := None;
     pf_user_role := role;
     pf_manager_id := None;
     pf_is_active := active;
     pf_created_at := 0;
     pf_updated_at := 0 |}.

Definition mkUser (id name : string) : User :=
  {| user_id := u id;
     user_email := Some (u name ++ u "@example.com");
     user_metadata_full_name := Some (u name) |}.

Definition alice : User := mkUser "u1" "alice".
Definition root : User := mkUser "a1" "root".

Definition aliceCtx : AuthContext :=
  {| user := Some alice; profile := Some (mkProfile "u1" "alice" employee true) |}.

(** alice after her account was deactivated. *)
Definition inactiveCtx : AuthContext :=
  {| user := Some alice; profile := Some (mkProfile "u1" "alice" employee false) |}.

Definition rootCtx : AuthContext :=
  {| user := Some root; profile := Some (mkProfile "a1" "root" admin true) |}.

Definition mkRequestId (id : jsstring) (days : Z) (st : Status)
  (created : Z) : LeaveRequest :=
  {| lr_id := id;
     lr_employee_id := u "u1";
     lr_leave_type := u "vacation";
     lr_start_date := 19884;
     lr_end_date := 19884 + days - 1;
     lr_total_days := days;
     lr_reason := u "family trip";
     lr_status := st;
     lr_approved_by := None;
     lr_approved_at := None;
     lr_rejection_reason := None;
     lr_created_at := created |}.

Definition mkRequest (id : string) (days : Z) (st : Status) (created : Z) :
  LeaveRequest :=
  mkRequestId (u id) days st created.

Definition mkBalance (total used : Z) : LeaveBalance :=
  {| lb_employee_id := u "u1";
     lb_leave_type := u "vacation";
     lb_total_days := total;
     lb_used_days := used;
     lb_remaining_days := total - used;
     lb_year := 2024 |}.

Definition people : list Profile :=
  [mkProfile "u1" "alice" employee true; mkProfile "a1" "root" admin true].

Definition db0 : DB :=
  {| leave_requests := [mkRequest "r1" 5 pending 1000];
     leave_balances := [mkBalance 10 2];
     profiles := people |}.

(** The same employee with 3 days left and a pending request for 8. *)
Definition db_short : DB :=
  {| leave_requests := [mkRequest "r2" 8 pending 2000];
     leave_balances := [mkBalance 10 7];
     profiles := people |}.

(** 101 one-day requests, request n created at time n. *)
Definition db_many : DB :=
  {| leave_requests :=
       map (fun n => mkRequestId (u "r" ++ decimal (Z.of_nat n)) 1 pending
                       (Z.of_nat n))
         (seq 1 101);
     leave_balances := [mkBalance 10 2];
     profiles := people |}.

Definition mkForm (s e : option Z) (why : string) : FormData :=
  {| leave_type := u "vacation";
     start_date := s;
     end_date := e;
     reason := u why |}.

Definition permission_denied : PgError :=
  {| code := u "PGRST301"; message := Some (u "permission denied") |}.

Definition table_missing : PgError :=
  {| code := u "PGRST116"; message := Some (u "not found") |}.

End Sample.

(** What the bell state keeps: no more unread entries than entries, and
    no more than the 10 the query asks for. *)
Definition bell_ok (st : BellState) : Prop :=
  (unreadCount st <= length (notifications st))%nat
  /\ (length (notifications st) <= 10)%nat.

(** The columns of a profile that the profile form does not send. *)
Definition same_protected_fields (p p' : Profile) : Prop :=
  pf_id p' = pf_id p
  /\ pf_employee_id p' = pf_employee_id p
  /\ pf_user_role p' = pf_user_role p
  /\ pf_is_active p' = pf_is_active p
  /\ pf_salary p' = pf_salary p
  /\ pf_manager_id p' = pf_manager_id p
  /\ pf_avatar_url p' = pf_avatar_url p
  /\ pf_created_at p' = pf_created_at p.

(** A notification up to its read flag. *)
Definition same_but_read (n n' : Notification) : Prop :=
  nt_id n' = nt_id n /\ nt_user_id n' = nt_user_id n
  /\ nt_title n' = nt_title n /\ nt_message n' = nt_message n
  /\ nt_type n' = nt_type n /\ nt_created_at n' = nt_created_at n.

(** ** Further sample data *)

Module SampleMore.

Definition mkNote (id owner : string) (read : bool) (created : Z) :
  Notification :=
  {| nt_id := u id;
     nt_user_id := u owner;
     nt_title := u "Leave request";
     nt_message := u "Your request was updated";
     nt_type := u "general";
     nt_is_read := read;
     nt_created_at := created |}.

Definition notes : list Notification :=
  [mkNote "n1" "u1" false 10; mkNote "n2" "a1" false 20;
   mkNote "n3" "u1" true 30; mkNote "n4" "u1" false 40].

Definition bell0 : BellState := {| notifications := []; unreadCount := 0 |}.

(** Lower-casing of the ASCII letters. *)
Definition asciiLower (s : jsstring) : jsstring :=
  map (fun c => if (N.leb 65 c && N.leb c 90)%bool then (c + 32)%N else c) s.

Definition editForm : EditForm :=
  {| ef_full_name := u "Alice A.";
     ef_email := u "alice@example.com";
     ef_phone := u "";
     ef_address := u "1 Main Street";
     ef_department := u "Sales";
     ef_position := u "";
     ef_hire_date := u "2020-03-01" |}.

(** A store with a pending, an approved and a rejected request. *)
Definition db_mixed : DB :=
  {| leave_requests :=
       [Sample.mkRequest "r1" 5 pending 1000;
        Sample.mkRequest "r2" 2 approved 2000;
        Sample.mkRequest "r3" 1 rejected 3000];
     leave_balances := [Sample.mkBalance 10 2];
     profiles := Sample.people |}.

(** A store without any profile row. *)
Definition db_no_profiles : DB :=
  {| leave_requests := [];
     leave_balances := [];
     profiles := [] |}.

End SampleMore.

(** ** Properties of the submission form *)

Section Submission.

Lemma Math_ceil_div_whole (k : Z) : Math_ceil_div (k * msPerDay) msPerDay = k.
Proof.
  unfold Math_ceil_div.
  replace (- (k * msPerDay)) with ((- k) * msPerDay) by ring.
  rewrite Z.div_mul by (unfold msPerDay; lia).
  lia.
Qed.

Lemma calculateDays_dates (s e : Z) :
  calculateDays (Some s) (Some e) = (e - s) + 1.
Proof.
  unfold calculateDays, getTime.
  replace (e * msPerDay - s * msPerDay) with ((e - s) * msPerDay) by ring.
  now rewrite Math_ceil_div_whole.
Qed.

Lemma calculateDays_unset_l (e : option Z) : calculateDays None e = 0.
Proof. reflexivity. Qed.

Lemma calculateDays_unset_r (s : option Z) : calculateDays s None = 0.
Proof. now destruct s. Qed.

(** [handleSubmit] only ever appends to leave_requests. *)
Lemma handleSubmit_other_tables ctx form ins new_id created db :
  leave_balances (fst (handleSubmit ctx form ins new_id created db))
  = leave_balances db
  /\ profiles (fst (handleSubmit ctx form ins new_id created db))
     = profiles db.
Proof.
  unfold handleSubmit.
  destruct (user ctx), (profile ctx); simpl; auto.
  destruct (_ <=? 0); simpl; auto.
  destruct ins; simpl; auto.
Qed.

End Submission.

(** C4. For date inputs with start_date <= end_date, the request that
    [handleSubmit] creates carries total_days = (end_date - start_date in
    whole days) + 1; for start_date > end_date the submission is refused
    with the message "End date must be after start date" (the spec's
    InvalidRange) and the store is left as it was, whatever the store
    would have answered. *)
Theorem handleSubmit_total_days
  (ctx : AuthContext) (usr : User) (prof : Profile) (form : FormData)
  (s e : Z) (ins : Fault) (new_id : jsstring) (created : Z) (db : DB) :
  user ctx = Some usr ->
  profile ctx = Some prof ->
  start_date form = Some s ->
  end_date form = Some e ->
  (s <= e ->
   calculateDays (start_date form) (end_date form) = (e - s) + 1
   /\ exists row,
        handleSubmit ctx form NoFault new_id created db
        = ({| leave_requests := leave_requests db ++ [row];
              leave_balances := leave_balances db;
              profiles := profiles db |}, MsgSuccess)
        /\ lr_total_days row = (e - s) + 1
        /\ lr_start_date row = s /\ lr_end_date row = e
        /\ lr_status row = pending)
  /\ (s > e ->
      handleSubmit ctx form ins new_id created db = (db, MsgEndBeforeStart)).
Proof.
  intros Hu Hp Hs He.
  unfold handleSubmit. rewrite Hu, Hp, Hs, He, calculateDays_dates.
  split; intros Hle.
  - split; [reflexivity|].
    destruct (Z.leb_spec (e - s + 1) 0) as [Hneg|_]; [lia|].
    eexists. split; [reflexivity|].
    unfold requestPayload; simpl. rewrite Hs, He. auto.
  - destruct (Z.leb_spec (e - s + 1) 0) as [_|Hpos]; [reflexivity|lia].
Qed.

Lemma handleSubmit_total_days_witness :
  map lr_total_days
    (leave_requests
       (fst (handleSubmit Sample.aliceCtx
               (Sample.mkForm (Some 19884) (Some 19888) "family trip")
               NoFault (u "r9") 5000 Sample.db0)))
  = [5; 5]
  /\ handleSubmit Sample.aliceCtx
       (Sample.mkForm (Some 19888) (Some 19884) "family trip")
       NoFault (u "r9") 5000 Sample.db0
     = (Sample.db0, MsgEndBeforeStart).
Proof.
  split.
  - destruct (handleSubmit_total_days Sample.aliceCtx Sample.alice
                (Sample.mkProfile "u1" "alice" employee true)
                (Sample.mkForm (Some 19884) (Some 19888) "family trip")
                19884 19888 NoFault (u "r9") 5000 Sample.db0
                eq_refl eq_refl eq_refl eq_refl) as [Hok _].
    destruct (Hok ltac:(lia)) as [_ [row [Heq [Hdays _]]]].
    rewrite Heq. simpl. rewrite Hdays. reflexivity.
  - destruct (handleSubmit_total_days Sample.aliceCtx Sample.alice
                (Sample.mkProfile "u1" "alice" employee true)
                (Sample.mkForm (Some 19888) (Some 19884) "family trip")
                19888 19884 NoFault (u "r9") 5000 Sample.db0
                eq_refl eq_refl eq_refl eq_refl) as [_ Hbad].
    apply Hbad. lia.
Defined.

(** C6. Evaluation at a reason of three blanks, submitted by alice on
    2024-06-10 (day 19884) for 2024-06-10 to 2024-06-14.  The reason is
    empty after trimming.  [handleSubmit] makes no check of the trimmed
    reason: the request is stored with the empty reason and reported as
    a success.  The page does not stop it either: the submit button is
    enabled, every required control is filled and both dates respect
    their [min], so the click reaches [handleSubmit]. *)
Theorem handleSubmit_blank_reason_stored :
  let form := Sample.mkForm (Some 19884) (Some 19888) "   " in
  let stored :=
    ({| leave_requests :=
          leave_requests Sample.db0
          ++ [{| lr_id := u "r9";
                 lr_employee_id := u "u1";
                 lr_leave_type := u "vacation";
                 lr_start_date := 19884;
                 lr_end_date := 19888;
                 lr_total_days := 5;
                 lr_reason := [];
                 lr_status := pending;
                 lr_approved_by := None;
                 lr_approved_at := None;
                 lr_rejection_reason := None;
                 lr_created_at := 1718000000000 |}];
        leave_balances := leave_balances Sample.db0;
        profiles := profiles Sample.db0 |}, MsgSuccess) in
  trim (reason form) = []
  /\ handleSubmit Sample.aliceCtx form NoFault (u "r9") 1718000000000
       Sample.db0
     = stored
  /\ submit_disabled false Sample.aliceCtx = false
  /\ form_valid 19884 form = true
  /\ onSubmit 19884 false Sample.aliceCtx form NoFault (u "r9") 1718000000000
       Sample.db0
     = Some stored.
Proof. repeat split. Qed.

(** ** Properties of the decide handlers *)

Section Decide.

Lemma str_eqb_refl (a : jsstring) : str_eqb a a = true.
Proof. induction a; simpl; [reflexivity|]. now rewrite N.eqb_refl. Qed.

Lemma str_eqb_eq (a b : jsstring) : str_eqb a b = true <-> a = b.
Proof.
  split; [|intros ->; apply str_eqb_refl].
  revert b. induction a as [|x a IH]; destruct b as [|y b]; simpl;
    try congruence.
  intros H. apply andb_true_iff in H as [Hx Hab].
  apply N.eqb_eq in Hx. subst. f_equal. now apply IH.
Qed.

Lemma Forall2_map_self {A} (R : A -> A -> Prop) (f : A -> A) (l : list A) :
  (forall x, In x l -> R x (f x)) -> Forall2 R l (map f l).
Proof.
  induction l as [|x l IH]; intros H; simpl; constructor.
  - apply H. now left.
  - apply IH. intros y Hy. apply H. now right.
Qed.

Lemma Forall2_same {A} (R : A -> A -> Prop) (l : list A) :
  (forall x, R x x) -> Forall2 R l l.
Proof. intros H. induction l; constructor; auto. Qed.

Lemma update_where_rel {A} (key_of : A -> jsstring) key patch
  (R : A -> A -> Prop) (rows : list A) :
  (forall r, str_eqb (key_of r) key = true -> R r (patch r)) ->
  (forall r, str_eqb (key_of r) key = false -> R r r) ->
  Forall2 R rows (update_where key_of key patch rows).
Proof.
  intros Hhit Hmiss. unfold update_where. apply Forall2_map_self.
  intros r _. destruct (str_eqb (key_of r) key) eqn:E; auto.
Qed.

Lemma In_update_where {A} (key_of : A -> jsstring) key patch (rows : list A) r :
  In r rows ->
  In (if str_eqb (key_of r) key then patch r else r)
     (update_where key_of key patch rows).
Proof.
  intros H. unfold update_where.
  apply (in_map (fun r => if str_eqb (key_of r) key then patch r else r)).
  exact H.
Qed.

(** Neither decide handler touches leave_balances or profiles. *)
Lemma handleApprove_balances authUser now upd requestId db :
  leave_balances (fst (handleApprove authUser now upd requestId db))
  = leave_balances db.
Proof. destruct upd; reflexivity. Qed.

Lemma handleReject_balances upd requestId reason db :
  leave_balances (fst (handleReject upd requestId reason db))
  = leave_balances db.
Proof.
  unfold handleReject. destruct (reason_missing reason); [reflexivity|].
  destruct upd; reflexivity.
Qed.

Lemma reason_missing_trim (r : jsstring) :
  trim r = [] -> reason_missing (Some r) = true.
Proof.
  intros H. unfold reason_missing. rewrite H. simpl. apply orb_true_r.
Qed.

End Decide.

(** C5. A reject whose reason is absent, or empty after trimming, ends
    in the alert "Please provide a reason for rejection." (the spec's
    MissingReason) before any call to the store: the store, and with it
    every field of the request, is unchanged. *)
Theorem handleReject_missing_reason
  (upd : Fault) (requestId : jsstring) (reason : option jsstring) (db : DB) :
  reason = None \/ (exists r, reason = Some r /\ trim r = []) ->
  handleReject upd requestId reason db = (db, Alerted AlertMissingReason).
Proof.
  intros [-> | [r [-> Hr]]]; unfold handleReject.
  - reflexivity.
  - now rewrite (reason_missing_trim r Hr).
Qed.

Lemma handleReject_missing_reason_witness :
  handleReject NoFault (u "r1") (Some (u "  ")) Sample.db0
  = (Sample.db0, Alerted AlertMissingReason)
  /\ handleReject NoFault (u "r1") None Sample.db0
     = (Sample.db0, Alerted AlertMissingReason).
Proof.
  split.
  - apply (handleReject_missing_reason NoFault (u "r1") (Some (u "  "))
             Sample.db0).
    right. exists (u "  "). split; reflexivity.
  - apply (handleReject_missing_reason NoFault (u "r1") None Sample.db0).
    left. reflexivity.
Defined.

(** C1, as stated, fails: approving the 5-day request of the sample
    store succeeds and marks it approved, and used_days of the matching
    balance row is still 2, not 2 + 5. *)
Lemma handleApprove_used_days_unchanged :
  snd (handleApprove (Some Sample.root) 7000 NoFault (u "r1") Sample.db0)
  = Refresh
  /\ map lr_status
       (leave_requests
          (fst (handleApprove (Some Sample.root) 7000 NoFault (u "r1")
                  Sample.db0)))
     = [approved]
  /\ map lr_total_days (leave_requests Sample.db0) = [5]
  /\ map lb_used_days (leave_balances Sample.db0) = [2]
  /\ map lb_used_days
       (leave_balances
          (fst (handleApprove (Some Sample.root) 7000 NoFault (u "r1")
                  Sample.db0)))
     = [2]
  /\ map lb_used_days
       (leave_balances
          (fst (handleApprove (Some Sample.root) 7000 NoFault (u "r1")
                  Sample.db0)))
     <> [2 + 5].
Proof. repeat split. discriminate. Qed.

(** C1, amended. A successful approval writes the request row only: the
    rows with the given id get status approved, approved_at = now and
    approved_by = the signed-in user (it is left as it was when nobody is
    signed in); their rejection_reason and every other column, total_days
    among them, stay as they were; every other request is untouched; and
    no balance row and no profile changes (no debit takes place). *)
Theorem handleApprove_writes_request_only
  (authUser : option User) (now : Z) (requestId : jsstring) (db : DB) :
  snd (handleApprove authUser now NoFault requestId db) = Refresh
  /\ leave_balances (fst (handleApprove authUser now NoFault requestId db))
     = leave_balances db
  /\ profiles (fst (handleApprove authUser now NoFault requestId db))
     = profiles db
  /\ Forall2
       (fun r r' =>
          if str_eqb (lr_id r) requestId
          then lr_status r' = approved /\ lr_approved_at r' = Some now
               /\ lr_approved_by r'
                  = match authUser with
                    | Some usr => Some (user_id usr)
                    | None => lr_approved_by r
                    end
               /\ lr_rejection_reason r' = lr_rejection_reason r
               /\ same_request_columns r r'
               /\ lr_total_days r' = lr_total_days r /\ lr_id r' = lr_id r
          else r' = r)
       (leave_requests db)
       (leave_requests (fst (handleApprove authUser now NoFault requestId db))).
Proof.
  split; [reflexivity|]. split; [reflexivity|]. split; [reflexivity|].
  simpl. apply update_where_rel; intros r E; rewrite E; simpl; auto.
  unfold same_request_columns. simpl. repeat split.
Qed.

(** C2, as stated, fails: with 3 days remaining, approving the 8-day
    request succeeds; the request does not stay pending and nothing like
    InsufficientBalance is reported. *)
Lemma handleApprove_beyond_balance :
  map lb_remaining_days (leave_balances Sample.db_short) = [3]
  /\ map lr_total_days (leave_requests Sample.db_short) = [8]
  /\ snd (handleApprove (Some Sample.root) 7000 NoFault (u "r2")
            Sample.db_short)
     = Refresh
  /\ map lr_status
       (leave_requests
          (fst (handleApprove (Some Sample.root) 7000 NoFault (u "r2")
                  Sample.db_short)))
     = [approved]
  /\ map lr_status
       (leave_requests
          (fst (handleApprove (Some Sample.root) 7000 NoFault (u "r2")
                  Sample.db_short)))
     <> [pending].
Proof. repeat split. discriminate. Qed.

(** C2, amended. Approving a request whose total_days exceeds the
    remaining_days of the matching balance row is not refused: when the
    store accepts the write the handler reports success, the request is
    stored as approved, and the balance rows are unchanged. *)
Theorem handleApprove_ignores_balance
  (authUser : option User) (now : Z) (db : DB)
  (r : LeaveRequest) (b : LeaveBalance) :
  In r (leave_requests db) ->
  In b (leave_balances db) ->
  lb_employee_id b = lr_employee_id r ->
  lb_leave_type b = lr_leave_type r ->
  lr_total_days r > lb_remaining_days b ->
  snd (handleApprove authUser now NoFault (lr_id r) db) = Refresh
  /\ In (approve_patch authUser now r)
       (leave_requests (fst (handleApprove authUser now NoFault (lr_id r) db)))
  /\ lr_status (approve_patch authUser now r) = approved
  /\ leave_balances (fst (handleApprove authUser now NoFault (lr_id r) db))
     = leave_balances db
  /\ In b (leave_balances (fst (handleApprove authUser now NoFault (lr_id r) db))).
Proof.
  intros Hr Hb _ _ _.
  split; [reflexivity|]. split.
  - simpl.
    pose proof (In_update_where lr_id (lr_id r) (approve_patch authUser now)
                  (leave_requests db) r Hr) as H.
    now rewrite str_eqb_refl in H.
  - split; [reflexivity|]. split; [reflexivity|]. exact Hb.
Qed.

Lemma handleApprove_ignores_balance_witness :
  snd (handleApprove (Some Sample.root) 7000 NoFault (u "r2") Sample.db_short)
  = Refresh
  /\ leave_balances
       (fst (handleApprove (Some Sample.root) 7000 NoFault (u "r2")
               Sample.db_short))
     = [Sample.mkBalance 10 7].
Proof.
  destruct (handleApprove_ignores_balance (Some Sample.root) 7000
              Sample.db_short (Sample.mkRequest "r2" 8 pending 2000)
              (Sample.mkBalance 10 7))
    as [Hout [_ [_ [Hbal _]]]].
  - simpl. left. reflexivity.
  - simpl. left. reflexivity.
  - reflexivity.
  - reflexivity.
  - simpl. lia.
  - split; [exact Hout | exact Hbal].
Defined.

(** C3. Evaluation of a second decision taken from a stale list.  The
    list fetched while the request of the sample store was pending
    offers both buttons to the admin.  The request is then approved.  The
    reject clicked on the stale row is not refused: it performs the
    write and reports success, the status changes a second time, from
    approved to rejected, and the rejected row keeps approved_by and
    approved_at. *)
Theorem decide_twice_overwrites :
  let shown := requests (fetchLeaveRequests None NoFault NoFault Sample.db0) in
  let db1 :=
    fst (handleApprove (Some Sample.root) 7000 NoFault (u "r1") Sample.db0) in
  map lr_status (leave_requests Sample.db0) = [pending]
  /\ map lr_status (leave_requests db1) = [approved]
  /\ snd (handleReject NoFault (u "r1") (Some (u "changed my mind")) db1)
     = Refresh
  /\ map lr_status
       (leave_requests
          (fst (handleReject NoFault (u "r1") (Some (u "changed my mind")) db1)))
     = [rejected]
  /\ fst (handleReject NoFault (u "r1") (Some (u "changed my mind")) db1)
     <> db1
  /\ map li_id shown = [u "r1"]
  /\ map (renderActions true (isAdmin Sample.rootCtx)) shown
     = [[ApproveButton; RejectButton]]
  /\ onRejectClick NoFault (u "r1") (Some (u "changed my mind")) db1
     = Some (handleReject NoFault (u "r1") (Some (u "changed my mind")) db1)
  /\ map lr_approved_by
       (leave_requests
          (fst (handleReject NoFault (u "r1") (Some (u "changed my mind")) db1)))
     = [Some (u "a1")]
  /\ map lr_approved_at
       (leave_requests
          (fst (handleReject NoFault (u "r1") (Some (u "changed my mind")) db1)))
     = [Some 7000].
Proof. repeat split. discriminate. Qed.

(** What the page does to keep a request from being decided twice: the
    decide handlers never write the status pending (a request that is
    pending after [handleApprove] or [handleReject] was pending before),
    and the approve and reject buttons are rendered only for a row whose
    fetched status is pending. *)
Lemma decide_never_writes_pending
  (authUser : option User) (now : Z) (upd : Fault) (requestId : jsstring)
  (reason : option jsstring) (db : DB) :
  Forall2 (fun r r' => lr_status r' = pending -> lr_status r = pending)
    (leave_requests db)
    (leave_requests (fst (handleApprove authUser now upd requestId db)))
  /\ Forall2 (fun r r' => lr_status r' = pending -> lr_status r = pending)
       (leave_requests db)
       (leave_requests (fst (handleReject upd requestId reason db)))
  /\ (forall showActions is_admin item,
        renderActions showActions is_admin item <> [] ->
        li_status item = pending).
Proof.
  repeat apply conj.
  - destruct upd; simpl; try (apply Forall2_same; auto).
    apply update_where_rel; simpl; [discriminate | auto].
  - unfold handleReject. destruct (reason_missing reason);
      [apply Forall2_same; auto|].
    destruct upd; simpl; try (apply Forall2_same; auto).
    apply update_where_rel; simpl; [discriminate | auto].
  - intros showActions is_admin item. unfold renderActions.
    destruct (showActions && is_admin); [|congruence].
    destruct (li_status item); simpl; congruence.
Qed.

(** C8, as stated, fails: a successful reject of the pending request of
    the sample store records no decision timestamp; and a reject that
    follows an approve leaves approved_by and approved_at set on a
    rejected request. *)
Lemma handleReject_records_no_timestamp :
  let db1 := fst (handleReject NoFault (u "r1") (Some (u "no cover")) Sample.db0) in
  let db2 :=
    fst (handleReject NoFault (u "r1") (Some (u "no cover"))
           (fst (handleApprove (Some Sample.root) 7000 NoFault (u "r1")
                   Sample.db0))) in
  snd (handleReject NoFault (u "r1") (Some (u "no cover")) Sample.db0) = Refresh
  /\ map lr_status (leave_requests db1) = [rejected]
  /\ map lr_approved_at (leave_requests db1) = [None]
  /\ map lr_status (leave_requests db2) = [rejected]
  /\ map lr_approved_by (leave_requests db2) = [Some (u "a1")]
  /\ map lr_approved_at (leave_requests db2) = [Some 7000].
Proof. repeat split. Qed.

(** C8, amended. For a request that has not been decided before
    (pending, no decision field set, as the form creates it), one
    accepted decision leaves: rejection_reason present iff status =
    rejected; approved_at, the only timestamp a decision writes, present
    iff status = approved; approved_by present only if status = approved,
    and set to the deciding user when there is one.  A reject writes
    status and rejection_reason only: it writes no timestamp, leaves
    approved_by unset and every other column of the request, every other
    request, the balances and the profiles as they were. *)
Theorem single_decision_fields
  (authUser : option User) (now : Z) (reason : jsstring) (r : LeaveRequest) :
  undecided r ->
  reason_missing (Some reason) = false ->
  (decision_fields_ok (approve_patch authUser now r)
   /\ lr_status (approve_patch authUser now r) = approved
   /\ lr_approved_at (approve_patch authUser now r) = Some now
   /\ lr_approved_by (approve_patch authUser now r)
      = option_map user_id authUser
   /\ lr_rejection_reason (approve_patch authUser now r) = None
   /\ same_request_columns r (approve_patch authUser now r))
  /\ (decision_fields_ok (reject_patch reason r)
      /\ lr_status (reject_patch reason r) = rejected
      /\ lr_rejection_reason (reject_patch reason r) = Some reason
      /\ reason <> []
      /\ lr_approved_at (reject_patch reason r) = None
      /\ lr_approved_by (reject_patch reason r) = None
      /\ same_request_columns r (reject_patch reason r))
  /\ (forall db, In r (leave_requests db) ->
      In (approve_patch authUser now r)
        (leave_requests (fst (handleApprove authUser now NoFault (lr_id r) db)))
      /\ In (reject_patch reason r)
           (leave_requests
              (fst (handleReject NoFault (lr_id r) (Some reason) db))))
  /\ (forall db,
        snd (handleReject NoFault (lr_id r) (Some reason) db) = Refresh
        /\ leave_balances
             (fst (handleReject NoFault (lr_id r) (Some reason) db))
           = leave_balances db
        /\ profiles (fst (handleReject NoFault (lr_id r) (Some reason) db))
           = profiles db
        /\ Forall2
             (fun r0 r0' =>
                if str_eqb (lr_id r0) (lr_id r)
                then lr_status r0' = rejected
                     /\ lr_rejection_reason r0' = Some reason
                     /\ lr_approved_at r0' = lr_approved_at r0
                     /\ lr_approved_by r0' = lr_approved_by r0
                     /\ same_request_columns r0 r0'
                else r0' = r0)
             (leave_requests db)
             (leave_requests
                (fst (handleReject NoFault (lr_id r) (Some reason) db))))
  /\ (forall db,
        snd (handleApprove authUser now NoFault (lr_id r) db) = Refresh
        /\ leave_balances
             (fst (handleApprove authUser now NoFault (lr_id r) db))
           = leave_balances db
        /\ profiles (fst (handleApprove authUser now NoFault (lr_id r) db))
           = profiles db
        /\ Forall2
             (fun r0 r0' =>
                if str_eqb (lr_id r0) (lr_id r)
                then lr_status r0' = approved
                     /\ lr_approved_at r0' = Some now
                     /\ lr_approved_by r0'
                        = match authUser with
                          | Some usr => Some (user_id usr)
                          | None => lr_approved_by r0
                          end
                     /\ lr_rejection_reason r0' = lr_rejection_reason r0
                     /\ same_request_columns r0 r0'
                else r0' = r0)
             (leave_requests db)
             (leave_requests
                (fst (handleApprove authUser now NoFault (lr_id r) db)))).
Proof.
  intros (Hst & Hby & Hat & Hrr) Hreason.
  assert (Hne : reason <> []) by (intros ->; discriminate Hreason).
  split; [|split; [|split; [|split]]].
  - unfold decision_fields_ok, same_request_columns; simpl. rewrite Hrr.
    repeat split; try (intros; congruence).
    destruct authUser; simpl; [reflexivity | exact Hby].
  - unfold decision_fields_ok, same_request_columns; simpl. rewrite Hat, Hby.
    repeat split; try (intros; congruence).
  - intros db Hin. split.
    + pose proof (In_update_where lr_id (lr_id r) (approve_patch authUser now)
                    (leave_requests db) r Hin) as H.
      now rewrite str_eqb_refl in H.
    + unfold handleReject. rewrite Hreason. simpl.
      pose proof (In_update_where lr_id (lr_id r) (reject_patch reason)
                    (leave_requests db) r Hin) as H.
      now rewrite str_eqb_refl in H.
  - intros db. unfold handleReject. rewrite Hreason.
    split; [reflexivity|]. split; [reflexivity|]. split; [reflexivity|].
    simpl. apply update_where_rel; intros r0 E; rewrite E; [|reflexivity].
    unfold same_request_columns. simpl. repeat split.
  - intros db.
    split; [reflexivity|]. split; [reflexivity|]. split; [reflexivity|].
    simpl. apply update_where_rel; intros r0 E; rewrite E; [|reflexivity].
    unfold same_request_columns. simpl. repeat split.
Qed.

Lemma single_decision_fields_witness :
  decision_fields_ok
    (approve_patch (Some Sample.root) 7000
       (Sample.mkRequest "r1" 5 pending 1000))
  /\ decision_fields_ok
       (reject_patch (u "no cover") (Sample.mkRequest "r1" 5 pending 1000))
  /\ lr_approved_at
       (reject_patch (u "no cover") (Sample.mkRequest "r1" 5 pending 1000))
     = None.
Proof.
  destruct (single_decision_fields (Some Sample.root) 7000 (u "no cover")
              (Sample.mkRequest "r1" 5 pending 1000))
    as [[Ha _] [[Hr [_ [_ [_ [Hat _]]]]] _]].
  - repeat split.
  - reflexivity.
  - split; [exact Ha | split; [exact Hr | exact Hat]].
Defined.

(** ** Who may do what *)



Example access_gated_by_rendering_sample :
  Dashboard Sample.inactiveCtx = EmployeeDashboard
  /\ Dashboard_redirect false Sample.inactiveCtx = Some (u "/auth/login")
  /\ Dashboard Sample.rootCtx = AdminDashboard
  /\ renderActions true (isAdmin Sample.rootCtx)
       (transform None (Sample.mkRequest "r1" 5 pending 1000))
     = [ApproveButton; RejectButton].
Proof. repeat split. Qed.

(** ** Loading the profile *)

(** C9, as stated, fails: on a table-not-found error [fetchProfile]
    synthesizes nothing and yields null, also when a user is signed in;
    the same happens for a permission error whose message mentions a
    relation. *)
Lemma fetchProfile_table_missing_null :
  is_table_missing Sample.table_missing = true
  /\ fetchProfile (u "u1") (PgErr Sample.table_missing) (Some Sample.alice)
       9000 NoFault Sample.db0
     = (Sample.db0, None)
  /\ fetchProfile (u "u1")
       (PgErr {| code := u "42501";
                 message := Some (u "permission denied for relation profiles") |})
       (Some Sample.alice) 9000 NoFault Sample.db0
     = (Sample.db0, None).
Proof. repeat split. Qed.

(** C9, amended. A store error classified as table-not-found (code
    PGRST116, or a message containing "relation" or "does not exist")
    makes [fetchProfile] return null without surfacing the error: no
    profile is synthesized.  A permission error (code PGRST301, or a
    message containing "permission") that is not so classified, with a
    user signed in, makes it build the basic profile (user_role employee,
    is_active true, id of the user) and try to insert it: the profile is
    returned, stored when the insert succeeds and in memory only when the
    insert answers an error; null when the insert throws.  Any other
    error gives null. *)
Theorem fetchProfile_store_error
  (userId : jsstring) (e : PgError) (currentUser : option User) (now : Z)
  (ins : Fault) (db : DB) :
  (is_table_missing e = true ->
   fetchProfile userId (PgErr e) currentUser now ins db = (db, None))
  /\ (is_table_missing e = false -> is_permission_error e = true ->
      forall usr, currentUser = Some usr ->
        fetchProfile userId (PgErr e) currentUser now ins db
        = match ins with
          | NoFault =>
              ({| leave_requests := leave_requests db;
                  leave_balances := leave_balances db;
                  profiles := profiles db ++ [basicProfile usr now] |},
               Some (basicProfile usr now))
          | PgErr _ => (db, Some (basicProfile usr now))
          | Throws => (db, None)
          end
        /\ pf_user_role (basicProfile usr now) = employee
        /\ pf_is_active (basicProfile usr now) = true
        /\ pf_id (basicProfile usr now) = user_id usr)
  /\ (is_table_missing e = false -> is_permission_error e = false ->
      fetchProfile userId (PgErr e) currentUser now ins db = (db, None)).
Proof.
  unfold fetchProfile. split; [|split].
  - intros ->. reflexivity.
  - intros -> -> usr ->. split; [|repeat split].
    unfold createBasicProfile. destruct ins; reflexivity.
  - intros -> ->. reflexivity.
Qed.

Example fetchProfile_permission_denied_sample :
  is_table_missing Sample.permission_denied = false
  /\ is_permission_error Sample.permission_denied = true
  /\ fetchProfile (u "u1") (PgErr Sample.permission_denied)
       (Some Sample.alice) 9000 (PgErr Sample.permission_denied) Sample.db0
     = (Sample.db0, Some (basicProfile Sample.alice 9000))
  /\ pf_full_name (basicProfile Sample.alice 9000) = u "alice"
  /\ pf_employee_id (basicProfile Sample.alice 9000) = u "EMP9000".
Proof. repeat split. Qed.

(** ** The list of all requests *)

Section Listing.

Lemma insert_desc_perm (r : LeaveRequest) (rows : list LeaveRequest) :
  Permutation (r :: rows) (insert_desc r rows).
Proof.
  induction rows as [|x rows IH]; simpl; [reflexivity|].
  destruct (lr_created_at x <? lr_created_at r); [reflexivity|].
  rewrite perm_swap. now constructor.
Qed.

Lemma order_created_at_desc_perm (rows : list LeaveRequest) :
  Permutation rows (order_created_at_desc rows).
Proof.
  induction rows as [|r rows IH]; simpl; [constructor|].
  rewrite <- insert_desc_perm. now constructor.
Qed.

Lemma insert_desc_sorted (r : LeaveRequest) (rows : list LeaveRequest) :
  newest_first rows -> newest_first (insert_desc r rows).
Proof.
  unfold newest_first.
  induction rows as [|x rows IH]; intros Hs; simpl.
  - repeat constructor.
  - inversion Hs as [|? ? Hrest Hall]; subst.
    destruct (Z.ltb_spec (lr_created_at x) (lr_created_at r)) as [Hlt|Hge].
    + constructor; [exact Hs|].
      constructor; [unfold newer_or_same; lia|].
      eapply Forall_impl; [|exact Hall].
      unfold newer_or_same. intros a Ha. lia.
    + constructor; [now apply IH|].
      eapply Permutation_Forall; [apply insert_desc_perm|].
      constructor; [unfold newer_or_same; lia | exact Hall].
Qed.

Lemma order_created_at_desc_sorted (rows : list LeaveRequest) :
  newest_first (order_created_at_desc rows).
Proof.
  induction rows as [|r rows IH]; simpl.
  - constructor.
  - now apply insert_desc_sorted.
Qed.

Lemma newest_first_app (l1 l2 : list LeaveRequest) :
  newest_first (l1 ++ l2) ->
  newest_first l1
  /\ forall k o, In k l1 -> In o l2 -> lr_created_at o <= lr_created_at k.
Proof.
  unfold newest_first.
  induction l1 as [|x l1 IH]; simpl; intros Hs.
  - split; [constructor | intros k o []].
  - inversion Hs as [|? ? Hrest Hall]; subst.
    destruct (IH Hrest) as [Hs1 Hcross].
    rewrite Forall_app in Hall. destruct Hall as [Hall1 Hall2].
    split; [now constructor|].
    intros k o [<-|Hk] Ho.
    + rewrite Forall_forall in Hall2. apply (Hall2 o Ho).
    + now apply Hcross.
Qed.

(** The rows the query keeps and the rows it leaves out. *)
Lemma select_leave_requests_split (limit : option Z) (db : DB) :
  let kept := select_leave_requests limit db in
  let omitted :=
    skipn (Z.to_nat (limit_or_100 limit))
      (order_created_at_desc (leave_requests db)) in
  Permutation (leave_requests db) (kept ++ omitted)
  /\ newest_first kept
  /\ (forall k o, In k kept -> In o omitted ->
      lr_created_at o <= lr_created_at k)
  /\ length kept
     = Nat.min (Z.to_nat (limit_or_100 limit)) (length (leave_requests db)).
Proof.
  intros kept omitted. subst kept omitted. unfold select_leave_requests.
  set (n := Z.to_nat (limit_or_100 limit)).
  set (sorted := order_created_at_desc (leave_requests db)).
  assert (Hperm : Permutation (leave_requests db) sorted)
    by apply order_created_at_desc_perm.
  assert (Hsorted : newest_first (firstn n sorted ++ skipn n sorted)).
  { rewrite firstn_skipn. apply order_created_at_desc_sorted. }
  destruct (newest_first_app _ _ Hsorted) as [Hs Hcross].
  split; [now rewrite firstn_skipn|].
  split; [exact Hs|]. split; [exact Hcross|].
  rewrite length_firstn. now rewrite (Permutation_length Hperm).
Qed.

End Listing.

(** C10. Without a limit, [fetchLeaveRequests] shows at most 100
    requests: when the store answers, the list shows, row for row and
    column for column, the 100 stored requests (all of them if there are
    fewer) with the newest created_at, in the order newest first, and
    every request left out is no newer than any request shown. *)
Theorem fetchLeaveRequests_newest_100 (q2 : Fault) (db : DB) :
  q2 <> Throws ->
  exists (kept omitted : list LeaveRequest) (profilesData : option (list Profile)),
    requests (fetchLeaveRequests None NoFault q2 db)
    = map (transform profilesData) kept
    /\ map li_created_at (requests (fetchLeaveRequests None NoFault q2 db))
       = map lr_created_at kept
    /\ Permutation (leave_requests db) (kept ++ omitted)
    /\ length kept = Nat.min 100 (length (leave_requests db))
    /\ (length (requests (fetchLeaveRequests None NoFault q2 db)) <= 100)%nat
    /\ newest_first kept
    /\ (forall k o, In k kept -> In o omitted ->
        lr_created_at o <= lr_created_at k)
    /\ Forall2 shows_row (requests (fetchLeaveRequests None NoFault q2 db)) kept
    /\ (forall k, In k kept -> In k (leave_requests db))
    /\ error (fetchLeaveRequests None NoFault q2 db) = None.
Proof.
  intros Hq2.
  destruct (select_leave_requests_split None db)
    as (Hperm & Hsorted & Hcross & Hlen).
  change (Z.to_nat (limit_or_100 None)) with 100%nat in *.
  set (kept := select_leave_requests None db) in *.
  set (omitted := skipn 100 (order_created_at_desc (leave_requests db))) in *.
  assert (Hreq : exists pd,
             requests (fetchLeaveRequests None NoFault q2 db)
             = map (transform pd) kept
             /\ error (fetchLeaveRequests None NoFault q2 db) = None).
  { unfold fetchLeaveRequests. fold kept.
    destruct kept as [|k0 rest] eqn:Ek.
    - exists None. split; reflexivity.
    - destruct q2 as [|e|];
        [eexists; split; reflexivity | exists None; split; reflexivity |].
      congruence. }
  destruct Hreq as [pd [Hreq Herr]].
  exists kept, omitted, pd.
  split; [exact Hreq|]. split.
  { rewrite Hreq, map_map. reflexivity. }
  split; [exact Hperm|]. split; [exact Hlen|].
  split; [|split; [exact Hsorted | split; [exact Hcross|]]].
  { rewrite Hreq, length_map, Hlen. apply Nat.le_min_l. }
  split; [|split; [|exact Herr]].
  - rewrite Hreq. clear. induction kept as [|k rest IH]; simpl; constructor.
    + unfold shows_row. simpl. repeat split.
    + exact IH.
  - intros k Hk. eapply Permutation_in; [symmetry; exact Hperm|].
    apply in_or_app. now left.
Qed.

Lemma fetchLeaveRequests_newest_100_witness :
  length (leave_requests Sample.db_many) = 101%nat
  /\ length (requests (fetchLeaveRequests None NoFault NoFault Sample.db_many))
     = 100%nat
  /\ map li_id
       (firstn 2
          (requests (fetchLeaveRequests None NoFault NoFault Sample.db_many)))
     = [u "r101"; u "r100"]
  /\ exists kept,
       Forall2 shows_row
         (requests (fetchLeaveRequests None NoFault NoFault Sample.db_many))
         kept
       /\ forall k, In k kept -> In k (leave_requests Sample.db_many).
Proof.
  split; [reflexivity|].
  destruct (fetchLeaveRequests_newest_100 NoFault Sample.db_many)
    as (kept & omitted & pd & Hreq & _ & _ & Hlen & _ & _ & _ & Hshows & Hin & _).
  - discriminate.
  - split; [|split].
    + rewrite Hreq, length_map, Hlen. reflexivity.
    + reflexivity.
    + exists kept. split; [exact Hshows | exact Hin].
Defined.

(** On the 101 sample requests the list runs from the newest (created
    at 101) down to the one created at 2; the oldest is left out. *)
Example fetchLeaveRequests_sample_ends :
  let shown :=
    map li_created_at
      (requests (fetchLeaveRequests None NoFault NoFault Sample.db_many)) in
  hd 0 shown = 101 /\ last shown 0 = 2 /\ existsb (Z.eqb 1) shown = false.
Proof. vm_compute. repeat split. Qed.

(** ** Further properties of the submission form *)

Section SubmissionMore.

Lemma insert_message_not_success (e : PgError) : insert_message e <> MsgSuccess.
Proof.
  unfold insert_message.
  destruct (_ || _); [discriminate|].
  destruct (code_is e "23503"); [discriminate|].
  destruct (code_is e "PGRST116"); discriminate.
Qed.

Lemma db_eta (db : DB) :
  {| leave_requests := leave_requests db;
     leave_balances := leave_balances db;
     profiles := profiles db |} = db.
Proof. now destruct db. Qed.

End SubmissionMore.

(** X1. Whatever the session, the form values and the answer of the
    store, [handleSubmit] either leaves the store as it was, with a
    message other than the success message, or reports success and has
    appended exactly one request: for the signed-in user, pending, with
    no decision field set, start_date <= end_date, total_days =
    (end_date - start_date) + 1 >= 1 and the trimmed reason.  Balances
    and profiles are never written. *)
Theorem handleSubmit_store_effect
  (ctx : AuthContext) (form : FormData) (ins : Fault) (new_id : jsstring)
  (created : Z) (db : DB) :
  (snd (handleSubmit ctx form ins new_id created db) <> MsgSuccess
   /\ fst (handleSubmit ctx form ins new_id created db) = db)
  \/ (snd (handleSubmit ctx form ins new_id created db) = MsgSuccess
      /\ exists usr s e row,
           user ctx = Some usr
           /\ start_date form = Some s /\ end_date form = Some e /\ s <= e
           /\ fst (handleSubmit ctx form ins new_id created db)
              = {| leave_requests := leave_requests db ++ [row];
                   leave_balances := leave_balances db;
                   profiles := profiles db |}
           /\ lr_id row = new_id
           /\ lr_employee_id row = user_id usr
           /\ lr_start_date row = s /\ lr_end_date row = e
           /\ lr_total_days row = (e - s) + 1 /\ 1 <= lr_total_days row
           /\ lr_reason row = trim (reason form)
           /\ lr_created_at row = created
           /\ undecided row).
Proof.
  unfold handleSubmit.
  destruct (user ctx) as [usr|]; [|left; split; [discriminate | reflexivity]].
  destruct (profile ctx) as [prof|]; [|left; split; [discriminate | reflexivity]].
  destruct (start_date form) as [s|] eqn:Hs;
    [|left; split; [discriminate | reflexivity]].
  destruct (end_date form) as [e|] eqn:He;
    [|left; split; [discriminate | reflexivity]].
  rewrite calculateDays_dates.
  destruct (Z.leb_spec (e - s + 1) 0) as [Hneg|Hpos];
    [left; split; [discriminate | reflexivity]|].
  destruct ins as [|err|]; simpl.
  - right. split; [reflexivity|].
    exists usr, s, e. eexists. repeat split; simpl; try reflexivity.
    + lia.
    + now rewrite Hs.
    + now rewrite He.
    + lia.
  - left. split; [apply insert_message_not_success | reflexivity].
  - left. split; [discriminate | reflexivity].
Qed.

(** ** The employee's own list *)

Section OwnList.

Lemma newest_first_firstn (n : nat) (rows : list LeaveRequest) :
  newest_first rows -> newest_first (firstn n rows).
Proof.
  intros H. rewrite <- (firstn_skipn n rows) in H.
  now apply newest_first_app in H.
Qed.

Lemma In_firstn {A} (n : nat) (l : list A) (x : A) :
  In x (firstn n l) -> In x l.
Proof.
  intros H. rewrite <- (firstn_skipn n l). apply in_or_app. now left.
Qed.

Lemma In_order_created_at_desc (rows : list LeaveRequest) (r : LeaveRequest) :
  In r (order_created_at_desc rows) <-> In r rows.
Proof.
  split; intros H.
  - eapply Permutation_in; [symmetry; apply order_created_at_desc_perm | exact H].
  - eapply Permutation_in; [apply order_created_at_desc_perm | exact H].
Qed.

End OwnList.

(** X2. With a profile and an answering store, [fetchMyRequests] shows
    only requests of the profile's own id, newest first.  Without a limit
    (or with limit 0) it shows every request of that id; with a limit n >
    0 it shows min n of them. *)
Theorem fetchMyRequests_own
  (ctx : AuthContext) (p : Profile) (limit : option Z) (db : DB)
  (shown : list LeaveRequest) :
  profile ctx = Some p ->
  let own :=
    filter (fun r => str_eqb (lr_employee_id r) (pf_id p)) (leave_requests db) in
  let result := fetchMyRequests ctx limit NoFault db shown in
  (forall r, In r result ->
             In r (leave_requests db) /\ lr_employee_id r = pf_id p)
  /\ newest_first result
  /\ (limit = None \/ limit = Some 0 -> Permutation own result)
  /\ (forall n, limit = Some n -> 0 < n ->
                length result = Nat.min (Z.to_nat n) (length own)).
Proof.
  intros Hp own result. subst result. unfold fetchMyRequests. rewrite Hp.
  fold own.
  assert (Hin : forall r, In r (order_created_at_desc own) ->
                          In r (leave_requests db) /\ lr_employee_id r = pf_id p).
  { intros r Hr. apply (proj1 (In_order_created_at_desc _ _)) in Hr.
    apply filter_In in Hr. destruct Hr as [Hr He].
    split; [exact Hr | now apply str_eqb_eq]. }
  repeat apply conj.
  - intros r Hr. apply Hin.
    destruct limit as [n|]; [|exact Hr].
    destruct (n =? 0); [exact Hr | now apply In_firstn in Hr].
  - destruct limit as [n|]; [|apply order_created_at_desc_sorted].
    destruct (n =? 0); [apply order_created_at_desc_sorted|].
    apply newest_first_firstn, order_created_at_desc_sorted.
  - intros [-> | ->]; simpl; apply order_created_at_desc_perm.
  - intros n -> Hn. destruct (Z.eqb_spec n 0) as [->|_]; [lia|].
    rewrite length_firstn.
    now rewrite <- (Permutation_length (order_created_at_desc_perm own)).
Qed.

Lemma fetchMyRequests_own_witness :
  map lr_id
    (fetchMyRequests Sample.aliceCtx None NoFault SampleMore.db_mixed [])
  = [u "r3"; u "r2"; u "r1"]
  /\ newest_first
       (fetchMyRequests Sample.aliceCtx None NoFault SampleMore.db_mixed []).
Proof.
  split; [reflexivity|].
  apply (fetchMyRequests_own Sample.aliceCtx
           (Sample.mkProfile "u1" "alice" employee true) None
           SampleMore.db_mixed [] eq_refl).
Defined.

(** X3. A request submitted by a user whose profile carries the user's
    id is in that user's own list right after the store accepted it. *)
Theorem handleSubmit_then_fetchMyRequests
  (ctx : AuthContext) (usr : User) (p : Profile) (form : FormData) (s e : Z)
  (new_id : jsstring) (created : Z) (db : DB) (shown : list LeaveRequest) :
  user ctx = Some usr ->
  profile ctx = Some p ->
  pf_id p = user_id usr ->
  start_date form = Some s ->
  end_date form = Some e ->
  s <= e ->
  snd (handleSubmit ctx form NoFault new_id created db) = MsgSuccess
  /\ In (requestPayload usr form ((e - s) + 1) new_id created)
       (fetchMyRequests ctx None NoFault
          (fst (handleSubmit ctx form NoFault new_id created db)) shown).
Proof.
  intros Hu Hp Hid Hs He Hle.
  unfold handleSubmit. rewrite Hu, Hp, Hs, He, calculateDays_dates.
  destruct (Z.leb_spec (e - s + 1) 0) as [Hneg|_]; [lia|].
  split; [reflexivity|].
  unfold fetchMyRequests. rewrite Hp. simpl.
  apply In_order_created_at_desc. apply filter_In. split.
  - apply in_or_app. right. now left.
  - simpl. rewrite Hid. apply str_eqb_refl.
Qed.

Lemma handleSubmit_then_fetchMyRequests_witness :
  map lr_id
    (fetchMyRequests Sample.aliceCtx None NoFault
       (fst (handleSubmit Sample.aliceCtx
               (Sample.mkForm (Some 19884) (Some 19888) "family trip")
               NoFault (u "r9") 5000 Sample.db0)) [])
  = [u "r9"; u "r1"]
  /\ In (requestPayload Sample.alice
           (Sample.mkForm (Some 19884) (Some 19888) "family trip")
           5 (u "r9") 5000)
       (fetchMyRequests Sample.aliceCtx None NoFault
          (fst (handleSubmit Sample.aliceCtx
                  (Sample.mkForm (Some 19884) (Some 19888) "family trip")
                  NoFault (u "r9") 5000 Sample.db0)) []).
Proof.
  split; [reflexivity|].
  apply (handleSubmit_then_fetchMyRequests Sample.aliceCtx Sample.alice
           (Sample.mkProfile "u1" "alice" employee true)
           (Sample.mkForm (Some 19884) (Some 19888) "family trip")
           19884 19888 (u "r9") 5000 Sample.db0 []
           eq_refl eq_refl eq_refl eq_refl eq_refl).
  lia.
Defined.

(** ** Further properties of the list of all requests *)

Section ListingMore.

Lemma select_leave_requests_In (limit : option Z) (db : DB) (r : LeaveRequest) :
  In r (select_leave_requests limit db) -> In r (leave_requests db).
Proof.
  intros H. unfold select_leave_requests in H. apply In_firstn in H.
  now apply (proj1 (In_order_created_at_desc _ _)) in H.
Qed.

(** What the component holds after a fetch whose first query was
    answered: the selected rows, each combined with the profile data. *)
Lemma fetchLeaveRequests_answered (limit : option Z) (q2 : Fault) (db : DB) :
  q2 <> Throws ->
  requests (fetchLeaveRequests limit NoFault q2 db)
  = map (transform match q2 with
                   | NoFault =>
                       Some (profiles_in
                               (map lr_employee_id
                                  (select_leave_requests limit db)) db)
                   | _ => None
                   end)
      (select_leave_requests limit db).
Proof.
  intros Hq2. unfold fetchLeaveRequests.
  destruct (select_leave_requests limit db) as [|r0 rest] eqn:E.
  - reflexivity.
  - destruct q2; [reflexivity | reflexivity | congruence].
Qed.

Lemma fetchLeaveRequests_items (limit : option Z) (q2 : Fault) (db : DB)
  (item : ListItem) :
  In item (requests (fetchLeaveRequests limit NoFault q2 db)) ->
  exists r, In r (leave_requests db)
            /\ li_id item = lr_id r /\ li_status item = lr_status r
            /\ li_employee_id item = lr_employee_id r
            /\ li_rejection_reason item = lr_rejection_reason r.
Proof.
  intros H.
  destruct q2 as [|e|].
  - rewrite fetchLeaveRequests_answered in H by discriminate.
    apply in_map_iff in H. destruct H as [r [<- Hr]].
    exists r. split; [eapply select_leave_requests_In; eauto|]. now simpl.
  - rewrite fetchLeaveRequests_answered in H by discriminate.
    apply in_map_iff in H. destruct H as [r [<- Hr]].
    exists r. split; [eapply select_leave_requests_In; eauto|]. now simpl.
  - unfold fetchLeaveRequests in H.
    destruct (select_leave_requests limit db); destruct H.
Qed.

Lemma In_update_where_inv {A} (key_of : A -> jsstring) key patch
  (rows : list A) (r' : A) :
  In r' (update_where key_of key patch rows) ->
  exists r, In r rows
            /\ r' = if str_eqb (key_of r) key then patch r else r.
Proof.
  unfold update_where. intros H. apply in_map_iff in H.
  destruct H as [r [<- Hr]]. now exists r.
Qed.

Lemma order_newest_last (rows : list LeaveRequest) (new : LeaveRequest) :
  (forall r, In r rows -> lr_created_at r < lr_created_at new) ->
  exists rest, order_created_at_desc (rows ++ [new]) = new :: rest.
Proof.
  induction rows as [|x rows IH]; intros Hnew; simpl.
  - now exists [].
  - destruct IH as [rest Hrest].
    { intros r Hr. apply Hnew. now right. }
    fold (order_created_at_desc (rows ++ [new])). rewrite Hrest. simpl.
    destruct (Z.ltb_spec (lr_created_at new) (lr_created_at x)) as [Hlt|_].
    + specialize (Hnew x (or_introl eq_refl)). lia.
    + now eexists.
Qed.

End ListingMore.

(** X4. Whenever the profiles query does not throw, the list holds
    min (limit || 100) of the stored requests: an absent limit and the
    limit 0 both mean 100, and a limit n > 0 means n. *)
Theorem fetchLeaveRequests_length (limit : option Z) (q2 : Fault) (db : DB) :
  q2 <> Throws ->
  length (requests (fetchLeaveRequests limit NoFault q2 db))
  = Nat.min (Z.to_nat (limit_or_100 limit)) (length (leave_requests db))
  /\ (limit = None \/ limit = Some 0 -> limit_or_100 limit = 100)
  /\ (forall n, limit = Some n -> n <> 0 -> limit_or_100 limit = n).
Proof.
  intros Hq2. split; [|split].
  - rewrite fetchLeaveRequests_answered by exact Hq2.
    rewrite length_map.
    now destruct (select_leave_requests_split limit db) as (_ & _ & _ & Hlen).
  - intros [-> | ->]; reflexivity.
  - intros n -> Hn. simpl. destruct (Z.eqb_spec n 0); [contradiction | reflexivity].
Qed.

Lemma fetchLeaveRequests_length_witness :
  length (requests (fetchLeaveRequests (Some 5) NoFault NoFault Sample.db_many))
  = 5%nat
  /\ length (requests (fetchLeaveRequests (Some 0) NoFault NoFault Sample.db_many))
     = 100%nat.
Proof.
  split.
  - destruct (fetchLeaveRequests_length (Some 5) NoFault Sample.db_many)
      as [Hlen _]; [discriminate|]. rewrite Hlen. reflexivity.
  - destruct (fetchLeaveRequests_length (Some 0) NoFault Sample.db_many)
      as [Hlen _]; [discriminate|]. rewrite Hlen. reflexivity.
Defined.

(** X5. [fetchLeaveRequests] ends without an error message exactly when
    the first query was answered and the profiles query did not throw on
    a non-empty result; whenever it ends with an error message the list
    is empty.  An error of the first query is reported as "table not
    found" exactly when its code is PGRST116 or its message contains
    "does not exist". *)
Theorem fetchLeaveRequests_error
  (limit : option Z) (q1 q2 : Fault) (db : DB) :
  (error (fetchLeaveRequests limit q1 q2 db) = None
   <-> q1 = NoFault /\ (q2 = Throws -> select_leave_requests limit db = []))
  /\ (error (fetchLeaveRequests limit q1 q2 db) <> None ->
      requests (fetchLeaveRequests limit q1 q2 db) = [])
  /\ (forall e, q1 = PgErr e ->
        (error (fetchLeaveRequests limit q1 q2 db) = Some ErrTableNotFound
         <-> code_is e "PGRST116" || message_includes e "does not exist" = true)).
Proof.
  unfold fetchLeaveRequests. split; [|split].
  - destruct q1 as [|e|]; simpl.
    + destruct (select_leave_requests limit db) as [|r0 rest]; simpl.
      * split; [intros _; split; [reflexivity | reflexivity] | reflexivity].
      * destruct q2; simpl; split; try reflexivity;
          try (intros _; split; [reflexivity | discriminate]).
        -- discriminate.
        -- intros [_ H]. specialize (H eq_refl). discriminate.
    + split; [discriminate | intros [H _]; discriminate].
    + split; [discriminate | intros [H _]; discriminate].
  - destruct q1 as [|e|]; simpl; try reflexivity.
    destruct (select_leave_requests limit db) as [|r0 rest]; simpl;
      [reflexivity|].
    destruct q2; simpl; try reflexivity; intros H; now contradiction H.
  - intros e ->. simpl.
    destruct (code_is e "PGRST116" || message_includes e "does not exist");
      split; try reflexivity; discriminate.
Qed.

(** X6. When both queries are answered, the employee shown with a
    request is taken from the stored profile whose id is the request's
    employee_id, and it is missing exactly when no stored profile has
    that id.  When the profiles query answers an error, the same
    requests are shown, all without employee. *)
Theorem fetchLeaveRequests_join (limit : option Z) (db : DB) :
  (forall item,
     In item (requests (fetchLeaveRequests limit NoFault NoFault db)) ->
     match li_employee item with
     | Some info =>
         exists p, In p (profiles db) /\ pf_id p = li_employee_id item
                   /\ ei_full_name info = pf_full_name p
                   /\ ei_employee_id info = pf_employee_id p
                   /\ ei_department info = pf_department p
     | None => forall p, In p (profiles db) -> pf_id p <> li_employee_id item
     end)
  /\ (forall e,
        map li_id (requests (fetchLeaveRequests limit NoFault (PgErr e) db))
        = map li_id (requests (fetchLeaveRequests limit NoFault NoFault db))
        /\ forall item,
             In item (requests (fetchLeaveRequests limit NoFault (PgErr e) db)) ->
             li_employee item = None).
Proof.
  split.
  - intros item Hitem.
    rewrite fetchLeaveRequests_answered in Hitem by discriminate.
    apply in_map_iff in Hitem. destruct Hitem as [r [<- Hr]].
    unfold transform; simpl.
    set (ids := map lr_employee_id (select_leave_requests limit db)).
    destruct (find (fun p => str_eqb (pf_id p) (lr_employee_id r))
                (profiles_in ids db)) as [p|] eqn:Hfind; simpl.
    + apply find_some in Hfind. destruct Hfind as [Hin Heq].
      unfold profiles_in in Hin. apply filter_In in Hin.
      exists p. split; [tauto|]. split; [now apply str_eqb_eq | auto].
    + intros p Hp Hid.
      pose proof (find_none _ _ Hfind p) as Hnone.
      assert (Hin : In p (profiles_in ids db)).
      { unfold profiles_in. apply filter_In. split; [exact Hp|].
        apply existsb_exists. exists (lr_employee_id r). split.
        - unfold ids. now apply in_map.
        - rewrite Hid. apply str_eqb_refl. }
      specialize (Hnone Hin). simpl in Hnone.
      rewrite Hid, str_eqb_refl in Hnone. discriminate.
  - intros e. rewrite !fetchLeaveRequests_answered by discriminate. split.
    + rewrite !map_map. reflexivity.
    + intros item Hitem. apply in_map_iff in Hitem.
      destruct Hitem as [r [<- _]]. reflexivity.
Qed.

(** X7. After an accepted approve (or reject with a reason) and the
    refresh that follows, every row shown for that id has the new status
    and offers no approve or reject button, also to an admin. *)
Theorem decide_then_refresh_no_actions
  (authUser : option User) (now : Z) (requestId : jsstring)
  (reason : jsstring) (limit : option Z) (q2 : Fault) (db : DB) :
  (forall item showActions is_admin,
     In item
       (requests
          (fetchLeaveRequests limit NoFault q2
             (fst (handleApprove authUser now NoFault requestId db)))) ->
     li_id item = requestId ->
     li_status item = approved
     /\ renderActions showActions is_admin item = [])
  /\ (reason_missing (Some reason) = false ->
      forall item showActions is_admin,
        In item
          (requests
             (fetchLeaveRequests limit NoFault q2
                (fst (handleReject NoFault requestId (Some reason) db)))) ->
        li_id item = requestId ->
        li_status item = rejected
        /\ li_rejection_reason item = Some reason
        /\ renderActions showActions is_admin item = []).
Proof.
  split.
  - intros item showActions is_admin Hitem Hid.
    apply fetchLeaveRequests_items in Hitem.
    destruct Hitem as (r' & Hr' & Hid' & Hst & _).
    simpl in Hr'. apply In_update_where_inv in Hr'.
    destruct Hr' as (r & _ & ->).
    destruct (str_eqb (lr_id r) requestId) eqn:E.
    + simpl in Hst. unfold renderActions. rewrite Hst.
      split; [reflexivity|]. now destruct (showActions && is_admin).
    + rewrite Hid' in Hid. apply str_eqb_eq in Hid. congruence.
  - intros Hreason item showActions is_admin Hitem Hid.
    unfold handleReject in Hitem. rewrite Hreason in Hitem.
    apply fetchLeaveRequests_items in Hitem.
    destruct Hitem as (r' & Hr' & Hid' & Hst & _ & Hrr).
    simpl in Hr'. apply In_update_where_inv in Hr'.
    destruct Hr' as (r & _ & ->).
    destruct (str_eqb (lr_id r) requestId) eqn:E.
    + simpl in Hst, Hrr. unfold renderActions. rewrite Hst.
      split; [reflexivity|]. split; [exact Hrr|].
      now destruct (showActions && is_admin).
    + rewrite Hid' in Hid. apply str_eqb_eq in Hid. congruence.
Qed.

(** X8. A request that the store accepted with a created_at later than
    that of every stored request is the first row of the admin's list,
    pending, with both buttons offered to an admin. *)
Theorem handleSubmit_then_first_in_list
  (ctx : AuthContext) (usr : User) (p : Profile) (form : FormData) (s e : Z)
  (new_id : jsstring) (created : Z) (q2 : Fault) (db : DB) :
  user ctx = Some usr ->
  profile ctx = Some p ->
  start_date form = Some s ->
  end_date form = Some e ->
  s <= e ->
  (forall r, In r (leave_requests db) -> lr_created_at r < created) ->
  q2 <> Throws ->
  exists item rest,
    requests
      (fetchLeaveRequests None NoFault q2
         (fst (handleSubmit ctx form NoFault new_id created db)))
    = item :: rest
    /\ li_id item = new_id
    /\ li_employee_id item = user_id usr
    /\ li_status item = pending
    /\ li_total_days item = (e - s) + 1
    /\ renderActions true true item = [ApproveButton; RejectButton].
Proof.
  intros Hu Hp Hs He Hle Hnew Hq2.
  rewrite fetchLeaveRequests_answered by exact Hq2.
  unfold handleSubmit. rewrite Hu, Hp, Hs, He, calculateDays_dates.
  destruct (Z.leb_spec (e - s + 1) 0) as [Hneg|_]; [lia|].
  unfold select_leave_requests. simpl fst. simpl leave_requests.
  destruct (order_newest_last (leave_requests db)
              (requestPayload usr form (e - s + 1) new_id created))
    as [rest Hrest].
  { intros r Hr. simpl. now apply Hnew. }
  rewrite Hrest. simpl.
  eexists. eexists. split; [reflexivity|]. repeat split.
Qed.

Lemma handleSubmit_then_first_in_list_witness :
  map li_id
    (requests
       (fetchLeaveRequests None NoFault NoFault
          (fst (handleSubmit Sample.aliceCtx
                  (Sample.mkForm (Some 19884) (Some 19888) "family trip")
                  NoFault (u "r9") 5000 Sample.db0))))
  = [u "r9"; u "r1"]
  /\ exists item rest,
       requests
         (fetchLeaveRequests None NoFault NoFault
            (fst (handleSubmit Sample.aliceCtx
                    (Sample.mkForm (Some 19884) (Some 19888) "family trip")
                    NoFault (u "r9") 5000 Sample.db0)))
       = item :: rest
       /\ li_id item = u "r9"
       /\ li_employee_id item = u "u1"
       /\ li_status item = pending
       /\ li_total_days item = (19888 - 19884) + 1
       /\ renderActions true true item = [ApproveButton; RejectButton].
Proof.
  split; [reflexivity|].
  apply (handleSubmit_then_first_in_list Sample.aliceCtx Sample.alice
           (Sample.mkProfile "u1" "alice" employee true)
           (Sample.mkForm (Some 19884) (Some 19888) "family trip")
           19884 19888 (u "r9") 5000 NoFault Sample.db0
           eq_refl eq_refl eq_refl eq_refl).
  - lia.
  - simpl. intros r [<- | []]. simpl. lia.
  - discriminate.
Defined.

(** ** Decisions on an unknown request, and the counters *)

Section Counters.

Lemma update_where_no_match {A} (key_of : A -> jsstring) key patch
  (rows : list A) :
  (forall r, In r rows -> key_of r <> key) ->
  update_where key_of key patch rows = rows.
Proof.
  intros H. unfold update_where.
  rewrite <- (map_id rows) at 2. apply map_ext_in.
  intros r Hr. destruct (str_eqb (key_of r) key) eqn:E; [|reflexivity].
  apply str_eqb_eq in E. now apply H in Hr.
Qed.

Lemma count_status_cons (st : Status) (r : LeaveRequest)
  (rows : list LeaveRequest) :
  count_status st (r :: rows)
  = ((if status_eqb (lr_status r) st then 1 else 0) + count_status st rows)%nat.
Proof.
  unfold count_status. simpl. now destruct (status_eqb (lr_status r) st).
Qed.


Lemma count_status_partition (rows : list LeaveRequest) :
  (count_status pending rows + count_status approved rows
   + count_status rejected rows = length rows)%nat.
Proof.
  induction rows as [|r rows IH]; [reflexivity|].
  rewrite !count_status_cons. simpl length.
  destruct (lr_status r); simpl; lia.
Qed.

Lemma length_filter_le {A} (f : A -> bool) (l : list A) :
  (length (filter f l) <= length l)%nat.
Proof.
  induction l as [|x l IH]; simpl; [lia|].
  destruct (f x); simpl; lia.
Qed.

Lemma filter_filter_andb {A} (f g : A -> bool) (l : list A) :
  filter f (filter g l) = filter (fun x => g x && f x) l.
Proof.
  induction l as [|x l IH]; simpl; [reflexivity|].
  destruct (g x); simpl; [|exact IH].
  destruct (f x); now rewrite IH.
Qed.

Lemma vacation_balance_some (employeeId : jsstring) (year : Z) (db : DB)
  (b : LeaveBalance) :
  vacation_balance employeeId year db = Some b ->
  In b (leave_balances db) /\ lb_employee_id b = employeeId /\ lb_year b = year.
Proof.
  unfold vacation_balance. intros Hb.
  destruct (filter _ (leave_balances db)) as [|b0 [|b1 rest]] eqn:Hf;
    try discriminate.
  injection Hb as <-.
  assert (Hin : In b0 (filter
                         (fun b => str_eqb (lb_employee_id b) employeeId
                                   && str_eqb (lb_leave_type b) (u "vacation")
                                   && (lb_year b =? year))
                         (leave_balances db))).
  { rewrite Hf. now left. }
  apply filter_In in Hin. destruct Hin as [Hin Hc].
  apply andb_true_iff in Hc. destruct Hc as [Hc Hy].
  apply andb_true_iff in Hc. destruct Hc as [He _].
  split; [exact Hin|]. split; [now apply str_eqb_eq | now apply Z.eqb_eq].
Qed.

End Counters.

(** X9. A decision on an id that no stored request carries changes
    nothing in the store and is still reported as a success (the list is
    refreshed, no alert is raised). *)
Theorem decide_unknown_id
  (authUser : option User) (now : Z) (requestId : jsstring)
  (reason : jsstring) (db : DB) :
  (forall r, In r (leave_requests db) -> lr_id r <> requestId) ->
  handleApprove authUser now NoFault requestId db = (db, Refresh)
  /\ (reason_missing (Some reason) = false ->
      handleReject NoFault requestId (Some reason) db = (db, Refresh)).
Proof.
  intros Hno. split.
  - unfold handleApprove, set_leave_requests.
    rewrite update_where_no_match by exact Hno. now rewrite db_eta.
  - intros Hr. unfold handleReject, set_leave_requests. rewrite Hr.
    rewrite update_where_no_match by exact Hno. now rewrite db_eta.
Qed.

Lemma decide_unknown_id_witness :
  handleApprove (Some Sample.root) 7000 NoFault (u "nope") Sample.db0
  = (Sample.db0, Refresh)
  /\ handleReject NoFault (u "nope") (Some (u "no cover")) Sample.db0
     = (Sample.db0, Refresh).
Proof.
  destruct (decide_unknown_id (Some Sample.root) 7000 (u "nope")
              (u "no cover") Sample.db0) as [Ha Hr].
  - simpl. intros r [<- | []]. discriminate.
  - split; [exact Ha | apply Hr; reflexivity].
Defined.

(** X10. When both queries of [fetchStats] are answered, the three
    counters add up to the number of stored requests, and the employee
    counter is the number of active profiles, so at most the number of
    profiles.  When a query answers an error its counters are 0. *)
Theorem fetchStats_counters (db : DB) (stats : DashboardStats) (e : PgError) :
  (pendingLeaves (fetchStats NoFault NoFault db stats)
   + approvedLeaves (fetchStats NoFault NoFault db stats)
   + rejectedLeaves (fetchStats NoFault NoFault db stats)
   = length (leave_requests db))%nat
  /\ (totalEmployees (fetchStats NoFault NoFault db stats)
      <= length (profiles db))%nat
  /\ totalEmployees (fetchStats NoFault NoFault db stats)
     = length (filter pf_is_active (profiles db))
  /\ totalEmployees (fetchStats (PgErr e) NoFault db stats) = O
  /\ (pendingLeaves (fetchStats NoFault (PgErr e) db stats)
      + approvedLeaves (fetchStats NoFault (PgErr e) db stats)
      + rejectedLeaves (fetchStats NoFault (PgErr e) db stats) = 0)%nat.
Proof.
  simpl. repeat split.
  - apply count_status_partition.
  - apply length_filter_le.
Qed.



(** X12. On the employee dashboard, when the requests query is
    answered, the pending counter is the number of stored requests of
    the employee that are pending, and the approved counter and the
    "leaves taken" counter are both the number of stored requests of the
    employee that are approved (requests, not days); together they never
    exceed the employee's requests.  When the balance query is answered,
    the vacation days shown are the remaining_days of the stored balance
    row of the employee with leave type vacation for the year, if there
    is exactly one such row, and 0 otherwise.  A query answered with an
    error gives 0 for its numbers. *)
Theorem fetchEmployeeStats_counters
  (ctx : AuthContext) (p : Profile) (year : Z) (q1 q2 : Fault) (db : DB)
  (stats : EmployeeStats) :
  profile ctx = Some p ->
  q1 <> Throws ->
  q2 <> Throws ->
  let result := fetchEmployeeStats ctx year q1 q2 db stats in
  let own_with (st : Status) :=
    length
      (filter (fun r => str_eqb (lr_employee_id r) (pf_id p)
                        && status_eqb (lr_status r) st)
         (leave_requests db)) in
  let vacation_rows :=
    filter (fun b => str_eqb (lb_employee_id b) (pf_id p)
                     && str_eqb (lb_leave_type b) (u "vacation")
                     && (lb_year b =? year))
      (leave_balances db) in
  totalLeavesTaken result = approvedRequests result
  /\ (pendingRequests result + approvedRequests result
      <= length (filter (fun r => str_eqb (lr_employee_id r) (pf_id p))
                   (leave_requests db)))%nat
  /\ (vacation_balance (pf_id p) year db = None -> remainingVacation result = 0)
  /\ (forall b, q2 = NoFault -> vacation_balance (pf_id p) year db = Some b ->
                remainingVacation result = lb_remaining_days b
                /\ In b (leave_balances db)
                /\ lb_employee_id b = pf_id p /\ lb_year b = year)
  /\ (q1 = NoFault ->
      pendingRequests result = own_with pending
      /\ approvedRequests result = own_with approved
      /\ totalLeavesTaken result = own_with approved)
  /\ (forall e, q1 = PgErr e ->
      pendingRequests result = O /\ approvedRequests result = O
      /\ totalLeavesTaken result = O)
  /\ (q2 = NoFault ->
      (forall b, vacation_rows = [b] ->
                 remainingVacation result = lb_remaining_days b)
      /\ (length vacation_rows <> 1%nat -> remainingVacation result = 0))
  /\ (forall e, q2 = PgErr e -> remainingVacation result = 0).
Proof.
  intros Hp Hq1 Hq2 result own_with vacation_rows.
  subst result own_with. unfold fetchEmployeeStats.
  rewrite Hp.
  pose proof (count_status_partition
                (filter (fun r => str_eqb (lr_employee_id r) (pf_id p))
                   (leave_requests db))) as Hpart.
  assert (Hbal : vacation_balance (pf_id p) year db
                 = match vacation_rows with [b] => Some b | _ => None end)
    by reflexivity.
  assert (Hrows : (forall b, vacation_rows = [b] ->
                     match vacation_balance (pf_id p) year db with
                     | Some b0 => lb_remaining_days b0
                     | None => 0
                     end = lb_remaining_days b)
                  /\ (length vacation_rows <> 1%nat ->
                      match vacation_balance (pf_id p) year db with
                      | Some b0 => lb_remaining_days b0
                      | None => 0
                      end = 0)).
  { rewrite Hbal. split.
    - intros b ->. reflexivity.
    - intros Hlen. destruct vacation_rows as [|b0 [|b1 rest]];
        try reflexivity. now contradiction Hlen. }
  destruct q1 as [|e1|]; [| |congruence];
    (destruct q2 as [|e2|]; [| |congruence]);
    cbn [totalLeavesTaken pendingRequests approvedRequests remainingVacation].
  - split; [reflexivity|]. split; [lia|]. split; [intros ->; reflexivity|].
    split.
    { intros b _ Hb. rewrite Hb. split; [reflexivity|].
      now apply vacation_balance_some. }
    split.
    { intros _. unfold count_status. rewrite !filter_filter_andb.
      repeat split. }
    split; [intros e He; discriminate He|].
    split; [intros _; exact Hrows | intros e He; discriminate He].
  - split; [reflexivity|]. split; [lia|]. split; [intros _; reflexivity|].
    split; [intros b Hq; discriminate Hq|].
    split.
    { intros _. unfold count_status. rewrite !filter_filter_andb.
      repeat split. }
    split; [intros e He; discriminate He|].
    split; [intros Hq; discriminate Hq | intros e _; reflexivity].
  - split; [reflexivity|].
    split; [unfold count_status; simpl; lia|].
    split; [intros ->; reflexivity|].
    split.
    { intros b _ Hb. rewrite Hb. split; [reflexivity|].
      now apply vacation_balance_some. }
    split; [intros Hq; discriminate Hq|].
    split; [intros e _; repeat split|].
    split; [intros _; exact Hrows | intros e He; discriminate He].
  - split; [reflexivity|].
    split; [unfold count_status; simpl; lia|].
    split; [intros _; reflexivity|].
    split; [intros b Hq; discriminate Hq|].
    split; [intros Hq; discriminate Hq|].
    split; [intros e _; repeat split|].
    split; [intros Hq; discriminate Hq | intros e _; reflexivity].
Qed.

Lemma fetchEmployeeStats_counters_witness :
  fetchEmployeeStats Sample.aliceCtx 2024 NoFault NoFault SampleMore.db_mixed
    {| totalLeavesTaken := 0; pendingRequests := 0;
       approvedRequests := 0; remainingVacation := 0 |}
  = {| totalLeavesTaken := 1; pendingRequests := 1;
       approvedRequests := 1; remainingVacation := 8 |}
  /\ totalLeavesTaken
       (fetchEmployeeStats Sample.aliceCtx 2024 NoFault NoFault
          SampleMore.db_mixed
          {| totalLeavesTaken := 0; pendingRequests := 0;
             approvedRequests := 0; remainingVacation := 0 |})
     = approvedRequests
         (fetchEmployeeStats Sample.aliceCtx 2024 NoFault NoFault
            SampleMore.db_mixed
            {| totalLeavesTaken := 0; pendingRequests := 0;
               approvedRequests := 0; remainingVacation := 0 |})
  /\ remainingVacation
       (fetchEmployeeStats Sample.aliceCtx 2024 NoFault NoFault
          SampleMore.db_mixed
          {| totalLeavesTaken := 0; pendingRequests := 0;
             approvedRequests := 0; remainingVacation := 0 |})
     = lb_remaining_days (Sample.mkBalance 10 2).
Proof.
  split; [reflexivity|].
  destruct (fetchEmployeeStats_counters Sample.aliceCtx
              (Sample.mkProfile "u1" "alice" employee true) 2024 NoFault
              NoFault SampleMore.db_mixed
              {| totalLeavesTaken := 0; pendingRequests := 0;
                 approvedRequests := 0; remainingVacation := 0 |}
              eq_refl)
    as (Htaken & _ & _ & _ & _ & _ & Hvac & _); try discriminate.
  split; [exact Htaken|].
  destruct (Hvac eq_refl) as [Hone _].
  apply (Hone (Sample.mkBalance 10 2)). reflexivity.
Defined.

(** ** Activating and deactivating employees *)

Section Toggle.

Lemma set_active_same (p : Profile) : set_active (pf_is_active p) p = p.
Proof. now destruct p. Qed.

Lemma set_active_twice (a b : bool) (p : Profile) :
  set_active a (set_active b p) = set_active a p.
Proof. reflexivity. Qed.

Lemma update_where_twice {A} (key_of : A -> jsstring) key (f g : A -> A)
  (rows : list A) :
  (forall r, key_of (g r) = key_of r) ->
  update_where key_of key f (update_where key_of key g rows)
  = update_where key_of key (fun r => f (g r)) rows.
Proof.
  intros Hkey. unfold update_where. rewrite map_map. apply map_ext.
  intros r. destruct (str_eqb (key_of r) key) eqn:E.
  - now rewrite Hkey, E.
  - now rewrite E.
Qed.



End Toggle.

(** X13. An accepted [toggleEmployeeStatus] writes only the active flag
    of the rows with the given id: they get the negation of the status
    passed in, every other column and every other row stays, and
    requests and balances are untouched.  Clicking twice with the same
    (stale) status therefore changes nothing more, and when the status
    passed in is the stored one, toggling again with the new status
    restores the store. *)
Theorem toggleEmployeeStatus_flip
  (employeeId : jsstring) (currentStatus : bool) (db : DB) :
  (forall p, In p (profiles db) -> pf_id p = employeeId ->
             pf_is_active p = currentStatus) ->
  let db1 := fst (toggleEmployeeStatus NoFault employeeId currentStatus db) in
  Forall2
    (fun p p' =>
       if str_eqb (pf_id p) employeeId
       then p' = set_active (negb currentStatus) p
       else p' = p)
    (profiles db) (profiles db1)
  /\ leave_requests db1 = leave_requests db
  /\ leave_balances db1 = leave_balances db
  /\ fst (toggleEmployeeStatus NoFault employeeId currentStatus db1) = db1
  /\ fst (toggleEmployeeStatus NoFault employeeId (negb currentStatus) db1) = db.
Proof.
  intros Hshown db1. subst db1.
  cbn [fst toggleEmployeeStatus leave_requests leave_balances profiles].
  split; [|split; [reflexivity|split; [reflexivity|split]]].
  - apply update_where_rel; intros r E; rewrite E; reflexivity.
  - f_equal. rewrite update_where_twice by reflexivity.
    unfold update_where. apply map_ext. intros r.
    destruct (str_eqb (pf_id r) employeeId); reflexivity.
  - rewrite update_where_twice by reflexivity.
    etransitivity; [|apply db_eta]. f_equal.
    transitivity (map (fun x => x) (profiles db)); [|apply map_id].
    unfold update_where. apply map_ext_in. intros r Hr.
    destruct (str_eqb (pf_id r) employeeId) eqn:E; [|reflexivity].
    apply str_eqb_eq in E. rewrite set_active_twice, negb_involutive.
    rewrite <- (Hshown r Hr E). apply set_active_same.
Qed.

Lemma toggleEmployeeStatus_flip_witness :
  map pf_is_active
    (profiles (fst (toggleEmployeeStatus NoFault (u "u1") true Sample.db0)))
  = [false; true]
  /\ fst (toggleEmployeeStatus NoFault (u "u1") false
            (fst (toggleEmployeeStatus NoFault (u "u1") true Sample.db0)))
     = Sample.db0.
Proof.
  split; [reflexivity|].
  apply (toggleEmployeeStatus_flip (u "u1") true Sample.db0).
  simpl. intros p [<- | [<- | []]]; [reflexivity | discriminate].
Defined.



(** ** The search box of the employee list *)

Section Search.

Lemma includes_nil (s : jsstring) : includes s [] = true.
Proof. destruct s; reflexivity. Qed.

End Search.

(** X15. For a lower-casing that maps the empty string to itself, an
    empty search term shows every employee; and whatever the term, the
    employees shown are stored employees, in the stored order. *)
Theorem filteredEmployees_empty_search
  (toLowerCase : jsstring -> jsstring) (searchTerm : jsstring)
  (employees : list Profile) :
  toLowerCase [] = [] ->
  filteredEmployees toLowerCase [] employees = employees
  /\ (forall p, In p (filteredEmployees toLowerCase searchTerm employees) ->
                In p employees)
  /\ (length (filteredEmployees toLowerCase searchTerm employees)
      <= length employees)%nat.
Proof.
  intros Hlow. split; [|split].
  - unfold filteredEmployees. rewrite Hlow.
    induction employees as [|p rest IH]; [reflexivity|].
    cbn [filter]. rewrite includes_nil. cbn [orb]. now rewrite IH.
  - intros p Hp. unfold filteredEmployees in Hp.
    now apply filter_In in Hp.
  - apply length_filter_le.
Qed.

Lemma filteredEmployees_empty_search_witness :
  filteredEmployees SampleMore.asciiLower [] Sample.people = Sample.people
  /\ map pf_id (filteredEmployees SampleMore.asciiLower (u "ALI") Sample.people)
     = [u "u1"].
Proof.
  split; [|reflexivity].
  apply (filteredEmployees_empty_search SampleMore.asciiLower [] Sample.people).
  reflexivity.
Defined.

(** ** The notification bell *)

Section Bell.

Lemma insert_newest_perm (n : Notification) (rows : list Notification) :
  Permutation (n :: rows) (insert_newest n rows).
Proof.
  induction rows as [|x rows IH]; simpl; [reflexivity|].
  destruct (nt_created_at x <? nt_created_at n); [reflexivity|].
  rewrite perm_swap. now constructor.
Qed.

Lemma order_notifications_perm (rows : list Notification) :
  Permutation rows (order_notifications rows).
Proof.
  induction rows as [|n rows IH]; simpl; [constructor|].
  rewrite <- insert_newest_perm. now constructor.
Qed.

Lemma fetchNotifications_ok (usr : option User) (q : Fault)
  (table : list Notification) (st : BellState) :
  bell_ok st -> bell_ok (fetchNotifications usr q table st).
Proof.
  intros Hst. unfold fetchNotifications.
  destruct usr as [usr|]; [|exact Hst].
  destruct q; try exact Hst.
  unfold bell_ok; cbn [notifications unreadCount]. split.
  - apply length_filter_le.
  - apply firstn_le_length.
Qed.

Lemma filter_none {A} (f : A -> bool) (l : list A) :
  (forall x, In x l -> f x = false) -> filter f l = [].
Proof.
  induction l as [|x l IH]; intros H; simpl; [reflexivity|].
  rewrite (H x (or_introl eq_refl)). apply IH.
  intros y Hy. apply H. now right.
Qed.

End Bell.

(** X16. The bell never holds more than 10 notifications, nor more
    unread ones than it holds: every operation of the bell keeps this,
    whatever the store answers.  So the count never passes 99 and the
    badge, when shown, is the exact count. *)
Theorem bell_state_bounded
  (usr : option User) (who : User) (upd q : Fault) (notificationId : jsstring)
  (table : list Notification) (st : BellState) :
  bell_ok st ->
  bell_ok (fetchNotifications usr q table st)
  /\ bell_ok (snd (markAsRead usr upd q notificationId table st))
  /\ bell_ok (snd (markAllAsRead who upd q table st))
  /\ (unreadCount (fetchNotifications usr q table st) <= 10)%nat
  /\ badge (unreadCount (fetchNotifications usr q table st))
     = if (0 <? unreadCount (fetchNotifications usr q table st))%nat
       then Some (decimal
                    (Z.of_nat (unreadCount (fetchNotifications usr q table st))))
       else None.
Proof.
  intros Hst.
  pose proof (fetchNotifications_ok usr q table st Hst) as Hfetch.
  split; [exact Hfetch|]. split; [|split; [|split]].
  - unfold markAsRead. destruct upd; cbn [snd];
      try apply fetchNotifications_ok; exact Hst.
  - unfold markAllAsRead. destruct upd; cbn [snd];
      try apply fetchNotifications_ok; exact Hst.
  - destruct Hfetch as [H1 H2]. lia.
  - unfold badge. destruct Hfetch as [H1 H2].
    destruct (Nat.ltb_spec 99 (unreadCount (fetchNotifications usr q table st)))
      as [Hbig|_]; [lia | reflexivity].
Qed.

Lemma bell_state_bounded_witness :
  unreadCount
    (fetchNotifications (Some Sample.alice) NoFault SampleMore.notes
       SampleMore.bell0)
  = 2%nat
  /\ badge
       (unreadCount
          (fetchNotifications (Some Sample.alice) NoFault SampleMore.notes
             SampleMore.bell0))
     = Some (u "2")
  /\ bell_ok
       (fetchNotifications (Some Sample.alice) NoFault SampleMore.notes
          SampleMore.bell0).
Proof.
  split; [reflexivity|]. split; [reflexivity|].
  apply (bell_state_bounded (Some Sample.alice) Sample.alice NoFault NoFault
           (u "n1") SampleMore.notes SampleMore.bell0).
  unfold bell_ok. simpl. lia.
Defined.

(** X17. After an accepted "mark all read" and the fetch that follows,
    the user has no unread notification left and the bell counts 0.  The
    update only sets the read flag, and only on the user's own rows:
    notifications of other users are left exactly as they were. *)
Theorem markAllAsRead_clears
  (who : User) (table : list Notification) (st : BellState) :
  let table' := fst (markAllAsRead who NoFault NoFault table st) in
  let st' := snd (markAllAsRead who NoFault NoFault table st) in
  unreadCount st' = O
  /\ (forall n, In n (notifications st') ->
                nt_is_read n = true /\ nt_user_id n = user_id who)
  /\ (forall n, In n table' -> nt_user_id n = user_id who ->
                nt_is_read n = true)
  /\ Forall2
       (fun n n' =>
          same_but_read n n'
          /\ (nt_is_read n = true -> n' = n)
          /\ (nt_user_id n <> user_id who -> n' = n))
       table table'.
Proof.
  intros table' st'. subst table' st'.
  cbn [fst snd markAllAsRead].
  set (table' := map _ table).
  assert (Hread : forall n, In n table' -> nt_user_id n = user_id who ->
                            nt_is_read n = true).
  { intros n Hn Hid. unfold table' in Hn. apply in_map_iff in Hn.
    destruct Hn as [m [<- Hm]].
    destruct (str_eqb (nt_user_id m) (user_id who)) eqn:E;
      destruct (nt_is_read m) eqn:R; simpl; auto.
    simpl in Hid. rewrite Hid, str_eqb_refl in E. discriminate. }
  assert (Hshown : forall n,
             In n (notifications
                     (fetchNotifications (Some who) NoFault table' st)) ->
             nt_is_read n = true /\ nt_user_id n = user_id who).
  { intros n Hn. cbn [fetchNotifications notifications] in Hn.
    apply In_firstn in Hn.
    eapply Permutation_in in Hn;
      [|symmetry; apply order_notifications_perm].
    apply filter_In in Hn. destruct Hn as [Hn Hid].
    apply str_eqb_eq in Hid. split; [now apply Hread | exact Hid]. }
  split; [|split; [exact Hshown | split; [exact Hread|]]].
  - cbn [fetchNotifications unreadCount].
    rewrite filter_none; [reflexivity|].
    intros n Hn. destruct (Hshown n Hn) as [-> _]. reflexivity.
  - unfold table'. apply Forall2_map_self. intros n _.
    destruct (str_eqb (nt_user_id n) (user_id who)) eqn:E;
      destruct (nt_is_read n) eqn:R; simpl.
    + unfold same_but_read. repeat split; auto.
    + unfold same_but_read. repeat split; simpl; auto; try discriminate.
      intros Hne. apply str_eqb_eq in E. contradiction.
    + unfold same_but_read. repeat split; auto.
    + unfold same_but_read. repeat split; auto.
Qed.

(** ** Profiles *)

Section Profiles.

Lemma find_app_none {A} (f : A -> bool) (l : list A) (x : A) :
  find f l = None -> f x = true -> find f (l ++ [x]) = Some x.
Proof.
  induction l as [|y l IH]; simpl; intros Hl Hx.
  - now rewrite Hx.
  - destruct (f y); [discriminate | now apply IH].
Qed.

Lemma createBasicProfile_result (usr : User) (now : Z) (ins : Fault) (db : DB)
  (p : Profile) :
  snd (createBasicProfile usr now ins db) = Some p ->
  p = basicProfile usr now
  /\ (fst (createBasicProfile usr now ins db) = db
      \/ fst (createBasicProfile usr now ins db)
         = {| leave_requests := leave_requests db;
              leave_balances := leave_balances db;
              profiles := profiles db ++ [p] |}).
Proof.
  unfold createBasicProfile.
  destruct ins; cbn [fst snd]; intros H; try discriminate;
    injection H as <-; split; auto.
Qed.

End Profiles.

(** X18. A profile that [fetchProfile] returns is either a stored
    profile with the id asked for, with the store left as it was, or the
    basic profile of the signed-in user (role employee, active), with
    the store left as it was or extended by exactly that profile.  In
    particular it never makes up an admin. *)
Theorem fetchProfile_result
  (userId : jsstring) (sel : Fault) (currentUser : option User) (now : Z)
  (ins : Fault) (db : DB) (p : Profile) :
  snd (fetchProfile userId sel currentUser now ins db) = Some p ->
  (In p (profiles db) /\ pf_id p = userId
   /\ fst (fetchProfile userId sel currentUser now ins db) = db)
  \/ (exists usr,
        currentUser = Some usr
        /\ p = basicProfile usr now
        /\ pf_user_role p = employee /\ pf_is_active p = true
        /\ pf_id p = user_id usr
        /\ (fst (fetchProfile userId sel currentUser now ins db) = db
            \/ fst (fetchProfile userId sel currentUser now ins db)
               = {| leave_requests := leave_requests db;
                    leave_balances := leave_balances db;
                    profiles := profiles db ++ [p] |})).
Proof.
  unfold fetchProfile.
  destruct sel as [|e|].
  - destruct (find _ (profiles db)) as [found|] eqn:Hfind.
    + cbn [fst snd]. intros H. injection H as <-. left.
      apply find_some in Hfind. destruct Hfind as [Hin Hid].
      split; [exact Hin|]. split; [now apply str_eqb_eq | reflexivity].
    + destruct currentUser as [usr|]; [|discriminate].
      intros H. right. exists usr.
      destruct (createBasicProfile_result usr now ins db p H) as [-> Hfst].
      repeat split. exact Hfst.
  - destruct (is_table_missing e); [discriminate|].
    destruct (is_permission_error e); [|discriminate].
    destruct currentUser as [usr|]; [|discriminate].
    intros H. right. exists usr.
    destruct (createBasicProfile_result usr now ins db p H) as [-> Hfst].
    repeat split. exact Hfst.
  - discriminate.
Qed.

Lemma fetchProfile_result_witness :
  snd (fetchProfile (u "u1") NoFault (Some Sample.alice) 9000 NoFault
         Sample.db0)
  = Some (Sample.mkProfile "u1" "alice" employee true)
  /\ In (Sample.mkProfile "u1" "alice" employee true) (profiles Sample.db0).
Proof.
  split; [reflexivity|].
  destruct (fetchProfile_result (u "u1") NoFault (Some Sample.alice) 9000
              NoFault Sample.db0 (Sample.mkProfile "u1" "alice" employee true)
              eq_refl) as [[Hin _] | [usr [_ [Hp _]]]].
  - exact Hin.
  - simpl. left. reflexivity.
Defined.

(** X19. When no profile is stored under a user's id, a first
    [fetchProfile] for that user stores the basic profile, and a second
    one finds it: it returns the same profile and stores nothing more. *)
Theorem fetchProfile_twice
  (usr : User) (now later : Z) (ins : Fault) (db : DB) :
  (forall p, In p (profiles db) -> pf_id p <> user_id usr) ->
  let first := fetchProfile (user_id usr) NoFault (Some usr) now NoFault db in
  snd first = Some (basicProfile usr now)
  /\ profiles (fst first) = profiles db ++ [basicProfile usr now]
  /\ fetchProfile (user_id usr) NoFault (Some usr) later ins (fst first)
     = (fst first, Some (basicProfile usr now)).
Proof.
  intros Hnone first.
  assert (Hfind : find (fun p => str_eqb (pf_id p) (user_id usr)) (profiles db)
                  = None).
  { destruct (find _ (profiles db)) as [p|] eqn:E; [|reflexivity].
    apply find_some in E. destruct E as [Hin Hid].
    apply str_eqb_eq in Hid. now apply Hnone in Hin. }
  subst first.
  assert (Hfirst :
            fetchProfile (user_id usr) NoFault (Some usr) now NoFault db
            = ({| leave_requests := leave_requests db;
                  leave_balances := leave_balances db;
                  profiles := profiles db ++ [basicProfile usr now] |},
               Some (basicProfile usr now))).
  { unfold fetchProfile. rewrite Hfind. reflexivity. }
  rewrite Hfirst. cbn [fst snd profiles].
  split; [reflexivity|]. split; [reflexivity|].
  unfold fetchProfile. cbn [profiles].
  rewrite (find_app_none _ _ (basicProfile usr now) Hfind); [reflexivity|].
  apply str_eqb_refl.
Qed.

Lemma fetchProfile_twice_witness :
  snd (fetchProfile (u "u1") NoFault (Some Sample.alice) 9000 NoFault
         SampleMore.db_no_profiles)
  = Some (basicProfile Sample.alice 9000)
  /\ fetchProfile (u "u1") NoFault (Some Sample.alice) 9500 NoFault
       (fst (fetchProfile (u "u1") NoFault (Some Sample.alice) 9000 NoFault
               SampleMore.db_no_profiles))
     = (fst (fetchProfile (u "u1") NoFault (Some Sample.alice) 9000 NoFault
               SampleMore.db_no_profiles),
        Some (basicProfile Sample.alice 9000)).
Proof.
  destruct (fetchProfile_twice Sample.alice 9000 9500 NoFault
              SampleMore.db_no_profiles) as [H1 [_ H3]].
  - intros p [].
  - split; [exact H1 | exact H3].
Defined.

Section ProfileForm.

Lemma same_protected_fields_refl (p : Profile) : same_protected_fields p p.
Proof. unfold same_protected_fields. repeat split. Qed.

Lemma save_updates_protected (form : EditForm) (now : Z) (p : Profile) :
  same_protected_fields p (apply_updates (save_updates form) now p).
Proof. unfold same_protected_fields. repeat split. Qed.

(** The store after [updateProfile], whatever happens. *)
Lemma updateProfile_store (ctx : AuthContext) (updates : ProfileUpdates)
  (now : Z) (upd : Fault) (db : DB) :
  fst (fst (updateProfile ctx updates now upd db)) = db
  \/ exists usr,
       user ctx = Some usr
       /\ fst (fst (updateProfile ctx updates now upd db))
          = {| leave_requests := leave_requests db;
               leave_balances := leave_balances db;
               profiles :=
                 update_where pf_id (user_id usr) (apply_updates updates now)
                   (profiles db) |}.
Proof.
  unfold updateProfile.
  destruct (user ctx) as [usr|]; [|now left].
  destruct upd; [|now left|now left].
  right. exists usr. split; [reflexivity|].
  destruct (find _ (profiles db)); reflexivity.
Qed.

Lemma handleSaveProfile_store (ctx : AuthContext) (form : EditForm) (now : Z)
  (upd : Fault) (db : DB) (isEditing : bool) :
  fst (fst (handleSaveProfile ctx form now upd db isEditing))
  = match profile ctx with
    | Some _ => fst (fst (updateProfile ctx (save_updates form) now upd db))
    | None => db
    end.
Proof.
  unfold handleSaveProfile.
  destruct (profile ctx); [|reflexivity].
  destruct (updateProfile ctx (save_updates form) now upd db)
    as [[db' ctx'] [err|]]; reflexivity.
Qed.

End ProfileForm.

(** X20. Saving the profile form never changes a request or a balance,
    and on profiles it writes only the row of the signed-in user, and of
    that row never the id, the employee id, the role, the active flag,
    the salary, the manager, the avatar or the creation time.  The editor
    is closed exactly when the save reported no error, that is when there
    is a profile and a user, the store accepted the update and a profile
    row with the user's id is stored; when the store answers an error or
    throws, when no row has the user's id, and without a user or a
    profile, the editor stays as it was.  Without a user or a profile
    nothing is written at all. *)
Theorem handleSaveProfile_protected
  (ctx : AuthContext) (form : EditForm) (now : Z) (upd : Fault) (db : DB)
  (isEditing : bool) :
  let result := handleSaveProfile ctx form now upd db isEditing in
  leave_requests (fst (fst result)) = leave_requests db
  /\ leave_balances (fst (fst result)) = leave_balances db
  /\ Forall2
       (fun p p' =>
          same_protected_fields p p'
          /\ (forall usr, user ctx = Some usr -> pf_id p <> user_id usr ->
                          p' = p))
       (profiles db) (profiles (fst (fst result)))
  /\ (snd result = false \/ snd result = isEditing)
  /\ (user ctx = None \/ profile ctx = None ->
      fst (fst result) = db /\ snd result = isEditing)
  /\ (forall usr row,
        profile ctx <> None -> user ctx = Some usr -> upd = NoFault ->
        In row (profiles db) -> pf_id row = user_id usr ->
        snd result = false)
  /\ (upd <> NoFault -> snd result = isEditing /\ fst (fst result) = db)
  /\ (forall usr,
        user ctx = Some usr ->
        (forall row, In row (profiles db) -> pf_id row <> user_id usr) ->
        snd result = isEditing).
Proof.
  intros result. subst result.
  assert (Hsame : Forall2
                    (fun p p' =>
                       same_protected_fields p p'
                       /\ (forall usr, user ctx = Some usr ->
                                       pf_id p <> user_id usr -> p' = p))
                    (profiles db) (profiles db)).
  { apply Forall2_same. intros p.
    split; [apply same_protected_fields_refl | reflexivity]. }
  split; [|split; [|split; [|split; [|split; [|split; [|split]]]]]].
  - rewrite handleSaveProfile_store. destruct (profile ctx); [|reflexivity].
    destruct (updateProfile_store ctx (save_updates form) now upd db)
      as [-> | [usr [_ ->]]]; reflexivity.
  - rewrite handleSaveProfile_store. destruct (profile ctx); [|reflexivity].
    destruct (updateProfile_store ctx (save_updates form) now upd db)
      as [-> | [usr [_ ->]]]; reflexivity.
  - rewrite handleSaveProfile_store. destruct (profile ctx); [|exact Hsame].
    destruct (updateProfile_store ctx (save_updates form) now upd db)
      as [-> | [usr [Hu ->]]]; [exact Hsame|].
    cbn [profiles]. apply update_where_rel.
    + intros r E. split; [apply save_updates_protected|].
      intros usr' Hu' Hne. rewrite Hu in Hu'. injection Hu' as <-.
      apply str_eqb_eq in E. contradiction.
    + intros r E. split; [apply same_protected_fields_refl | reflexivity].
  - unfold handleSaveProfile. destruct (profile ctx); [|now right].
    destruct (updateProfile ctx (save_updates form) now upd db)
      as [[db' ctx'] [err|]]; [now right | now left].
  - unfold handleSaveProfile, updateProfile.
    intros [Hu | Hp].
    + rewrite Hu. destruct (profile ctx); split; reflexivity.
    + rewrite Hp. split; reflexivity.
  - intros usr row Hp Hu -> Hin Hid.
    unfold handleSaveProfile, updateProfile. rewrite Hu.
    destruct (profile ctx); [|congruence].
    destruct (find (fun p => str_eqb (pf_id p) (user_id usr)) (profiles db))
      eqn:Hfind; [reflexivity|].
    pose proof (find_none _ _ Hfind row Hin) as Hno. cbn beta in Hno.
    rewrite Hid, str_eqb_refl in Hno. discriminate.
  - intros Hupd. unfold handleSaveProfile, updateProfile.
    destruct (profile ctx); [|split; reflexivity].
    destruct (user ctx); [|split; reflexivity].
    destruct upd; [congruence | split; reflexivity | split; reflexivity].
  - intros usr Hu Hnone. unfold handleSaveProfile, updateProfile. rewrite Hu.
    destruct (profile ctx); [|reflexivity].
    destruct upd; [|reflexivity|reflexivity].
    destruct (find (fun p => str_eqb (pf_id p) (user_id usr)) (profiles db))
      eqn:Hfind; [|reflexivity].
    apply find_some in Hfind. destruct Hfind as [Hin Hid].
    apply str_eqb_eq in Hid. now apply Hnone in Hin.
Qed.

(** alice saves the sample form: her row takes the new name, the empty
    phone becomes null and the date becomes a timestamp; her role and the
    administrator's row are as before. *)
Example handleSaveProfile_sample :
  let result :=
    handleSaveProfile Sample.aliceCtx SampleMore.editForm 8000 NoFault
      Sample.db0 true in
  map pf_full_name (profiles (fst (fst result))) = [u "Alice A."; u "root"]
  /\ map pf_phone (profiles (fst (fst result))) = [None; None]
  /\ map pf_hire_date (profiles (fst (fst result)))
     = [Some (u "2020-03-01T00:00:00.000Z"); None]
  /\ map pf_user_role (profiles (fst (fst result))) = [employee; admin]
  /\ map pf_updated_at (profiles (fst (fst result))) = [8000; 0]
  /\ snd result = false.
Proof. repeat split. Qed.
